(** * HealthAI: the risk and population scoring engine

    A shallow embedding of [risk_calculator.py], of the validation gate of
    [utils.py] and [app.py], and of the two population loops of
    [app.py] (risk tier of the maximum, age bands).

    Numbers.  The fields of a patient record are Python ints and floats;
    every such value is a rational, so they are embedded in [Q] and the
    threshold ladders compute.  The sub-scores are multiples of one half, so
    their sum is exact in binary floating point and in [Q] alike.  The
    sigmoid goes through [np.exp]: [RiskCalculator.sigmoid_transform] is
    the formula over the real numbers ([exp] of the Standard Library), which
    the binary64 value follows to within rounding on every total the scorers
    produce; [Binary64.sigmoid_transform] is the binary64 evaluation itself,
    with [np.exp] as a contract, and shows where the two part. *)

From Stdlib Require Import QArith Qabs Qminmax Qreals Reals.
From Stdlib Require Import String List Bool Permutation.
From Stdlib Require Import Morphisms Lqa Lra Lia.
From Stdlib Require Import Floats.
Import ListNotations.

(** ** Python comparisons on rationals *)

Module PyCmp.

Definition geb (x y : Q) : bool := Qle_bool y x.
Definition leb (x y : Q) : bool := Qle_bool x y.
Definition ltb (x y : Q) : bool := negb (Qle_bool y x).
Definition gtb (x y : Q) : bool := negb (Qle_bool x y).

End PyCmp.

Declare Scope py_scope.
Delimit Scope py_scope with py.
Infix ">=?" := PyCmp.geb (at level 70, no associativity) : py_scope.
Infix "<=?" := PyCmp.leb (at level 70, no associativity) : py_scope.
Infix "<?" := PyCmp.ltb (at level 70, no associativity) : py_scope.
Infix ">?" := PyCmp.gtb (at level 70, no associativity) : py_scope.

(** ** Python built-ins on floats and strings *)

Module PyBuiltins.

(** [max] on a list of floats whose first item is [x]; the floats here are
    risk percentages, embedded in the reals. *)
Definition py_max_R (x : R) (t : list R) : R :=
  fold_left (fun m y => if Rgt_dec y m then y else m) t x.

(** [c.lower()] on one ASCII character. *)
Definition lower_ascii (c : Ascii.ascii) : Ascii.ascii :=
  let n := Ascii.nat_of_ascii c in
  if (65 <=? n)%nat && (n <=? 90)%nat then Ascii.ascii_of_nat (n + 32) else c.

(** [s.lower()] on an ASCII string. *)
Fixpoint lower (s : string) : string :=
  match s with
  | EmptyString => EmptyString
  | String c s' => String (lower_ascii c) (lower s')
  end.

(** The newline character of a Python literal. *)
Definition newline : string := String (Ascii.ascii_of_nat 10) EmptyString.

End PyBuiltins.

(** ** Data model *)

(** The [patient_data] dictionary compiled by the intake form
    ([app.py], lines 100-121), one field per key. *)
Record PatientData : Type := mkPatient {
  age : Q;
  gender : string;
  height_cm : Q;
  weight_kg : Q;
  bmi : Q;
  systolic_bp : Q;
  diastolic_bp : Q;
  resting_hr : Q;
  glucose : Q;
  cholesterol : Q;
  hdl : Q;
  ldl : Q;
  smoking : string;
  exercise_days : Q;
  alcohol_drinks : Q;
  family_diabetes : bool;
  family_heart_disease : bool;
  family_hypertension : bool;
  current_medications : string;
  allergies : string
}.

(** [dict(patient_data, glucose=g)]: the record with one field replaced. *)
Definition with_glucose (p : PatientData) (g : Q) : PatientData :=
  mkPatient (age p) (gender p) (height_cm p) (weight_kg p) (bmi p)
    (systolic_bp p) (diastolic_bp p) (resting_hr p) g (cholesterol p)
    (hdl p) (ldl p) (smoking p) (exercise_days p) (alcohol_drinks p)
    (family_diabetes p) (family_heart_disease p) (family_hypertension p)
    (current_medications p) (allergies p).

(** [dict(patient_data, exercise_days=e, hdl=h)] *)
Definition with_exercise_hdl (p : PatientData) (e h : Q) : PatientData :=
  mkPatient (age p) (gender p) (height_cm p) (weight_kg p) (bmi p)
    (systolic_bp p) (diastolic_bp p) (resting_hr p) (glucose p)
    (cholesterol p) h (ldl p) (smoking p) e (alcohol_drinks p)
    (family_diabetes p) (family_heart_disease p) (family_hypertension p)
    (current_medications p) (allergies p).

(** [dict(patient_data, gender=g)] *)
Definition with_gender (p : PatientData) (g : string) : PatientData :=
  mkPatient (age p) g (height_cm p) (weight_kg p) (bmi p)
    (systolic_bp p) (diastolic_bp p) (resting_hr p) (glucose p)
    (cholesterol p) (hdl p) (ldl p) (smoking p) (exercise_days p)
    (alcohol_drinks p) (family_diabetes p) (family_heart_disease p)
    (family_hypertension p) (current_medications p) (allergies p).

(** The [risk_factors] dictionary: factor names in insertion order. *)
Definition RiskFactors : Type := list (string * Q).

(** [d[k] = v]: an existing key keeps its place, a new key goes last. *)
Fixpoint dict_set (d : RiskFactors) (k : string) (v : Q) : RiskFactors :=
  match d with
  | [] => [(k, v)]
  | (k', v') :: d' =>
      if (k' =? k)%string then (k, v) :: d' else (k', v') :: dict_set d' k v
  end.

(** [d[k]]; [None] stands for [KeyError]. *)
Fixpoint dict_get (d : RiskFactors) (k : string) : option Q :=
  match d with
  | [] => None
  | (k', v') :: d' => if (k' =? k)%string then Some v' else dict_get d' k
  end.

(** [sum(risk_factors.values())] *)
Definition sum_values (rf : RiskFactors) : Q :=
  fold_left (fun acc kv => acc + snd kv)%Q rf 0%Q.

(** The dictionary returned by each of the three scorers. *)
Record ConditionAssessment : Type := mkAssessment {
  risk_factors : RiskFactors;
  total_score : Q;
  risk_percentage : R;
  risk_level : string
}.

(** The dictionary returned by [calculate_all_risks]. *)
Record RiskAssessment : Type := mkRisks {
  diabetes : ConditionAssessment;
  heart_disease : ConditionAssessment;
  hypertension : ConditionAssessment
}.

(** ** RiskCalculator *)

Module RiskCalculator.

(** [self.risk_thresholds] as set by [__init__]. *)
Record Thresholds : Type := mkThresholds { low : R; medium : R }.

Definition risk_thresholds : Thresholds :=
  {| low := 40%R; medium := 70%R |}.


(** [100 / (1 + np.exp(-score / scale))] *)
Definition sigmoid_transform (score scale : R) : R :=
  (100 / (1 + exp (- score / scale)))%R.

(** The ladder that closes each scorer (lines 113-118, 247-252 and
    353-358 are the same text). *)
Definition level_of (risk_percentage : R) : string :=
  if Rge_dec risk_percentage (medium risk_thresholds) then "High"
  else if Rge_dec risk_percentage (low risk_thresholds) then "Medium"
  else "Low".

Local Open Scope string_scope.
Local Open Scope py_scope.

(** Lines 27-104: the breakdown of [calculate_diabetes_risk]. *)
Definition diabetes_factors (p : PatientData) : RiskFactors :=
  let rf := [] in
  let rf := dict_set rf "age_risk"
    (if age p >=? 65 then 3.0 else if age p >=? 45 then 2.0
     else if age p >=? 35 then 1.0 else 0.0)%Q in
  let rf := dict_set rf "bmi_risk"
    (if bmi p >=? 35 then 4.0 else if bmi p >=? 30 then 3.0
     else if bmi p >=? 25 then 2.0 else 0.0)%Q in
  let rf := dict_set rf "glucose_risk"
    (if glucose p >=? 126 then 5.0 else if glucose p >=? 100 then 3.0
     else if glucose p >=? 90 then 1.0 else 0.0)%Q in
  let rf := dict_set rf "bp_risk"
    (if systolic_bp p >=? 140 then 2.0
     else if systolic_bp p >=? 130 then 1.5
     else if systolic_bp p >=? 120 then 1.0 else 0.0)%Q in
  let rf := dict_set rf "exercise_risk"
    (if exercise_days p <? 2 then 2.0
     else if exercise_days p <? 4 then 1.0 else 0.0)%Q in
  let rf := dict_set rf "smoking_risk"
    (if (smoking p =? "Current")%string then 2.5
     else if (smoking p =? "Former")%string then 1.0 else 0.0)%Q in
  let rf := dict_set rf "family_history_risk"
    (if family_diabetes p then 3.0 else 0.0)%Q in
  let rf := dict_set rf "hdl_risk"
    (if hdl p <? 35 then 2.0 else if hdl p <? 40 then 1.0 else 0.0)%Q in
  rf.

(** Lines 131-238: the breakdown of [calculate_heart_disease_risk]. *)
Definition heart_disease_factors (p : PatientData) : RiskFactors :=
  let rf := [] in
  let rf := dict_set rf "age_gender_risk"
    (if (gender p =? "Male")%string
     then (if age p >=? 55 then 3.0 else if age p >=? 45 then 2.0 else 0.0)
     else (if age p >=? 65 then 3.0 else if age p >=? 55 then 2.0 else 0.0))%Q in
  let rf := dict_set rf "cholesterol_risk"
    (if cholesterol p >=? 240 then 3.0
     else if cholesterol p >=? 200 then 2.0 else 0.0)%Q in
  let rf := dict_set rf "ldl_risk"
    (if ldl p >=? 160 then 3.0 else if ldl p >=? 130 then 2.0
     else if ldl p >=? 100 then 1.0 else 0.0)%Q in
  let rf := dict_set rf "hdl_risk"
    (if hdl p <? 35 then 3.0 else if hdl p <? 40 then 2.0
     else if hdl p >=? 60 then -1.0 else 0.0)%Q in
  let rf := dict_set rf "bp_risk"
    (if systolic_bp p >=? 160 then 4.0
     else if systolic_bp p >=? 140 then 3.0
     else if systolic_bp p >=? 130 then 2.0
     else if systolic_bp p >=? 120 then 1.0 else 0.0)%Q in
  let rf := dict_set rf "smoking_risk"
    (if (smoking p =? "Current")%string then 4.0
     else if (smoking p =? "Former")%string then 1.5 else 0.0)%Q in
  let rf := dict_set rf "diabetes_risk"
    (if glucose p >=? 126 then 3.0
     else if glucose p >=? 100 then 1.5 else 0.0)%Q in
  let rf := dict_set rf "family_history_risk"
    (if family_heart_disease p then 2.5 else 0.0)%Q in
  let rf := dict_set rf "bmi_risk"
    (if bmi p >=? 30 then 2.0 else if bmi p >=? 25 then 1.0 else 0.0)%Q in
  let rf := dict_set rf "exercise_risk"
    (if exercise_days p >=? 5 then -1.0
     else if exercise_days p >=? 3 then -0.5
     else if exercise_days p <? 2 then 1.5 else 0.0)%Q in
  rf.

(** Lines 265-344: the breakdown of [calculate_hypertension_risk]. *)
Definition hypertension_factors (p : PatientData) : RiskFactors :=
  let rf := [] in
  let rf := dict_set rf "current_bp_risk"
    (if (systolic_bp p >=? 140) || (diastolic_bp p >=? 90) then 5.0
     else if (systolic_bp p >=? 130) || (diastolic_bp p >=? 80) then 3.0
     else if systolic_bp p >=? 120 then 1.5 else 0.0)%Q in
  let rf := dict_set rf "age_risk"
    (if age p >=? 65 then 3.0 else if age p >=? 55 then 2.0
     else if age p >=? 45 then 1.0 else 0.0)%Q in
  let rf := dict_set rf "bmi_risk"
    (if bmi p >=? 35 then 3.5 else if bmi p >=? 30 then 2.5
     else if bmi p >=? 25 then 1.5 else 0.0)%Q in
  let rf := dict_set rf "alcohol_risk"
    (if alcohol_drinks p >? 14 then 2.0
     else if alcohol_drinks p >? 7 then 1.0 else 0.0)%Q in
  let rf := dict_set rf "smoking_risk"
    (if (smoking p =? "Current")%string then 2.5
     else if (smoking p =? "Former")%string then 1.0 else 0.0)%Q in
  let rf := dict_set rf "family_history_risk"
    (if family_hypertension p then 2.5 else 0.0)%Q in
  let rf := dict_set rf "exercise_risk"
    (if exercise_days p >=? 5 then -1.5
     else if exercise_days p >=? 3 then -1.0
     else if exercise_days p <? 2 then 1.5 else 0.0)%Q in
  let rf := dict_set rf "diabetes_risk"
    (if glucose p >=? 126 then 2.0
     else if glucose p >=? 100 then 1.0 else 0.0)%Q in
  rf.

(** The tail shared by the three scorers: [total_score], the sigmoid with
    the scorer's [scale], the level, and the returned dictionary. *)
Definition assess (rf : RiskFactors) (scale : R) : ConditionAssessment :=
  let total := sum_values rf in
  let pct := sigmoid_transform (Q2R total) scale in
  {| risk_factors := rf;
     total_score := total;
     risk_percentage := pct;
     risk_level := level_of pct |}.

Definition calculate_diabetes_risk (p : PatientData) : ConditionAssessment :=
  assess (diabetes_factors p) 8.0%R.

Definition calculate_heart_disease_risk (p : PatientData)
  : ConditionAssessment :=
  assess (heart_disease_factors p) 10.0%R.

Definition calculate_hypertension_risk (p : PatientData)
  : ConditionAssessment :=
  assess (hypertension_factors p) 8.0%R.

Definition calculate_all_risks (p : PatientData) : RiskAssessment :=
  {| diabetes := calculate_diabetes_risk p;
     heart_disease := calculate_heart_disease_risk p;
     hypertension := calculate_hypertension_risk p |}.

End RiskCalculator.

(** ** The sigmoid in binary64 *)

Module Binary64.

(** The real number a finite binary64 value stands for. *)
Definition to_R (f : float) : R :=
  match Prim2SF f with
  | S754_finite s m e =>
      ((if s then -1 else 1) * IZR (Zpos m) * powerRZ 2 e)%R
  | _ => 0%R
  end.

(** [np.exp(x)] on one binary64 value, as a contract every implementation
    of the exponential meets: NaN gives NaN, the infinities give inf and
    0.0, a zero gives exactly 1.0, and a finite [x] gives a value that is
    not negative, and is inf (with a RuntimeWarning) once e^x is beyond the
    binary64 range. *)
Definition np_exp_returns (x y : float) : Prop :=
  match Prim2SF x with
  | S754_nan => PrimFloat.is_nan y = true
  | S754_infinity false => y = infinity
  | S754_infinity true => y = 0%float
  | S754_zero _ => y = 1%float
  | S754_finite _ _ _ =>
      PrimFloat.leb 0 y = true /\
      ((2 ^ 1025 <= exp (to_R x))%R -> y = infinity)
  end.

(** What a call can do. *)
Inductive Outcome : Type :=
| Returns (r : float)
| ZeroDivisionError.

(** [100 / (1 + np.exp(-score / scale))] on Python floats: the quotient of
    two Python floats raises on a zero divisor. *)
Definition sigmoid_transform (score scale : float) (o : Outcome) : Prop :=
  if PrimFloat.eqb scale 0 then o = ZeroDivisionError
  else exists e : float,
      np_exp_returns (- score / scale)%float e /\
      o = Returns (100 / (1 + e))%float.

End Binary64.

(** ** utils.py: the validation of a record *)

Module Utils.

Local Open Scope string_scope.
Local Open Scope py_scope.

(** The [validation_result] dictionary. *)
Record ValidationResult : Type := mkValidation {
  valid : bool;
  message : string
}.

Definition reject (msg : string) : ValidationResult :=
  {| valid := false; message := msg |}.

Definition msg_age := "Age must be between 18 and 120 years".
Definition msg_bmi :=
  "BMI values appear to be outside normal range (10-100)".
Definition msg_systolic :=
  "Systolic blood pressure must be between 70-250 mmHg".
Definition msg_diastolic :=
  "Diastolic blood pressure must be between 40-150 mmHg".
Definition msg_pressure_order :=
  "Systolic pressure must be higher than diastolic pressure".
Definition msg_glucose := "Glucose levels must be between 50-500 mg/dL".
Definition msg_cholesterol :=
  "Total cholesterol must be between 100-500 mg/dL".
Definition msg_hdl := "HDL cholesterol must be between 20-150 mg/dL".
Definition msg_ldl := "LDL cholesterol must be between 50-300 mg/dL".
Definition msg_cholesterol_sum :=
  "Total cholesterol doesn't match HDL + LDL values (approximate check)".

(** Each [if] of the source returns at once; the chain of early returns
    is the nested conditional below.  The last check adds and subtracts:
    the rationals agree with binary64 there when the three lab values are
    integers, as the intake form and the sample file give them. *)
Definition validate_health_metrics (p : PatientData) : ValidationResult :=
  if (age p <? 18) || (age p >? 120) then reject msg_age
  else if (bmi p <? 10) || (bmi p >? 100) then reject msg_bmi
  else if (systolic_bp p <? 70) || (systolic_bp p >? 250)
    then reject msg_systolic
  else if (diastolic_bp p <? 40) || (diastolic_bp p >? 150)
    then reject msg_diastolic
  else if systolic_bp p <=? diastolic_bp p then reject msg_pressure_order
  else if (glucose p <? 50) || (glucose p >? 500) then reject msg_glucose
  else if (cholesterol p <? 100) || (cholesterol p >? 500)
    then reject msg_cholesterol
  else if (hdl p <? 20) || (hdl p >? 150) then reject msg_hdl
  else if (ldl p <? 50) || (ldl p >? 300) then reject msg_ldl
  else
    let total_cholesterol_calculated := (hdl p + ldl p)%Q in
    if Qabs (cholesterol p - total_cholesterol_calculated) >? 50
    then reject msg_cholesterol_sum
    else {| valid := true; message := "" |}.

(** Lines 166-175. *)
Definition format_risk_level_color (risk_percentage : R) : string :=
  if Rge_dec risk_percentage 70 then "🔴"
  else if Rge_dec risk_percentage 40 then "🟡"
  else "🟢".

(** Lines 177-188. *)
Definition get_bmi_category (bmi : Q) : string :=
  if bmi <? 18.5 then "Underweight"
  else if bmi <? 25 then "Normal weight"
  else if bmi <? 30 then "Overweight"
  else "Obese".

(** Lines 190-201. *)
Definition get_blood_pressure_category (systolic diastolic : Q) : string :=
  if (systolic <? 120) && (diastolic <? 80) then "Normal"
  else if (systolic <? 130) && (diastolic <? 80) then "Elevated"
  else if (systolic <? 140) || (diastolic <? 90) then "Stage 1 Hypertension"
  else "Stage 2 Hypertension".

(** Lines 203-252: the score before the final [max(0, score)].  Every
    increment is a Python int. *)
Definition cardiovascular_raw_score (p : PatientData) : Z :=
  let score := 0%Z in
  let score :=
    if age p >=? 65 then (score + 3)%Z
    else if age p >=? 55 then (score + 2)%Z
    else if age p >=? 45 then (score + 1)%Z
    else score in
  let score :=
    if (gender p =? "Male")%string && (age p >=? 45) then (score + 1)%Z
    else if (gender p =? "Female")%string && (age p >=? 55)
      then (score + 1)%Z
    else score in
  let score :=
    if (smoking p =? "Current")%string then (score + 3)%Z
    else if (smoking p =? "Former")%string then (score + 1)%Z
    else score in
  let score :=
    if systolic_bp p >=? 140 then (score + 2)%Z
    else if systolic_bp p >=? 130 then (score + 1)%Z
    else score in
  let score :=
    if cholesterol p >=? 240 then (score + 2)%Z
    else if cholesterol p >=? 200 then (score + 1)%Z
    else score in
  let score :=
    if hdl p <? 40 then (score + 1)%Z
    else if hdl p >=? 60 then (score - 1)%Z
    else score in
  let score :=
    if glucose p >=? 126 then (score + 2)%Z
    else if glucose p >=? 100 then (score + 1)%Z
    else score in
  score.

(** Lines 203-254. *)
Definition calculate_cardiovascular_risk_score (p : PatientData) : Z :=
  Z.max 0 (cardiovascular_raw_score p).

Definition line_high_priority : string :=
  PyBuiltins.newline
  ++ "⚠️  HIGH PRIORITY: Immediate medical consultation recommended".
Definition line_medium_priority : string :=
  PyBuiltins.newline
  ++ "📋 MEDIUM PRIORITY: Regular monitoring and lifestyle changes needed".
Definition line_low_risk : string :=
  PyBuiltins.newline
  ++ "✅ LOW RISK: Continue healthy lifestyle practices".

(** Lines 273-280 of [generate_risk_summary_text]: the closing line of the
    summary, chosen from the greatest of the three percentages.  (The lines
    before it print each percentage to one decimal.) *)
Definition overall_assessment_line (risk_results : RiskAssessment) : string :=
  let max_risk :=
    PyBuiltins.py_max_R
      (risk_percentage (diabetes risk_results))
      [ risk_percentage (heart_disease risk_results);
        risk_percentage (hypertension risk_results) ] in
  if Rge_dec max_risk 70 then line_high_priority
  else if Rge_dec max_risk 40 then line_medium_priority
  else line_low_risk.

End Utils.

(** ** app.py: the handler of the "Calculate Risk Assessment" button *)

Module App.

Local Open Scope string_scope.
Local Open Scope py_scope.

(** The part of [st.session_state] the handler writes from this
    repository's scoring code.  The care plan and the Watson insights come
    from modules outside the engine and are kept as calls in the trace. *)
Record Session : Type := mkSession {
  patient_data : option PatientData;
  risk_results : option RiskAssessment
}.

(** What the handler does, in program order. *)
Inductive Event : Type :=
| StError (msg : string)
| CallCalculateAllRisks (p : PatientData)
| CallGenerateCarePlan (p : PatientData) (r : RiskAssessment)
| CallGenerateHealthInsights (p : PatientData) (r : RiskAssessment)
| StSuccess (msg : string)
| StRerun.

Definition is_scoring_call (e : Event) : bool :=
  match e with
  | CallCalculateAllRisks _ => true
  | _ => false
  end.

(** Lines 123-147 of [main]. *)
Definition on_calculate (p : PatientData) (st : Session)
  : Session * list Event :=
  let validation_result := Utils.validate_health_metrics p in
  if negb (Utils.valid validation_result) then
    (st, [StError ("Validation Error: " ++ Utils.message validation_result)])
  else
    let results := RiskCalculator.calculate_all_risks p in
    ({| patient_data := Some p; risk_results := Some results |},
     [ CallCalculateAllRisks p;
       CallGenerateCarePlan p results;
       CallGenerateHealthInsights p results;
       StSuccess "✅ Risk assessment completed with AI insights!";
       StRerun ]).

(** *** Population analytics *)

(** The columns of [processed_data] read by the two loops below. *)
Record PopulationRow : Type := mkRow {
  row_age : Q;
  diabetes_risk : Q;
  heart_disease_risk : Q;
  hypertension_risk : Q
}.

(** Python's [max] on a list whose first item is [x]: the first of the
    greatest items. *)
Definition py_max_from (x : Q) (t : list Q) : Q :=
  fold_left (fun m y => if y >? m then y else m) t x.

(** [max(l)]; [None] stands for the [ValueError] on an empty list. *)
Definition py_max (l : list Q) : option Q :=
  match l with
  | [] => None
  | x :: t => Some (py_max_from x t)
  end.

(** Lines 469-474. *)
Definition tier_of (max_risk : Q) : string :=
  if max_risk >=? 70 then "High"
  else if max_risk >=? 40 then "Medium"
  else "Low".

Definition row_risks (row : PopulationRow) : list Q :=
  [diabetes_risk row; heart_disease_risk row; hypertension_risk row].

(** Lines 468-474: the label of one row. *)
Definition row_risk_level (row : PopulationRow) : string :=
  let max_risk :=
    py_max_from (diabetes_risk row)
                [heart_disease_risk row; hypertension_risk row] in
  tier_of max_risk.

(** Lines 466-474: the loop appends one label per row. *)
Definition risk_levels (processed_data : list PopulationRow) : list string :=
  map row_risk_level processed_data.

(** A maximum of a list: one of its items, below none of them. *)
Definition is_maximum (m : Q) (l : list Q) : Prop :=
  In m l /\ forall x, In x l -> (x <= m)%Q.

(** [pd.cut(x, bins, labels)] with the defaults [right=True] and
    [include_lowest=False]: bin [i] is the interval
    [(bins[i], bins[i+1]]]; a value in no bin is NaN, here [None]. *)
Fixpoint pd_cut (x : Q) (bins : list Q) (labels : list string)
  : option string :=
  match bins, labels with
  | lo :: ((hi :: _) as rest), lab :: labs =>
      if (lo <? x) && (x <=? hi) then Some lab else pd_cut x rest labs
  | _, _ => None
  end.

Definition age_bins : list Q := [0; 30; 50; 70; 100]%Q.
Definition age_labels : list string := ["<30"; "30-50"; "50-70"; "70+"].

(** Lines 488-492. *)
Definition age_group (row : PopulationRow) : option string :=
  pd_cut (row_age row) age_bins age_labels.

Definition mean (l : list Q) : option Q :=
  match l with
  | [] => None
  | _ => Some (fold_right Qplus 0 l / inject_Z (Z.of_nat (length l)))%Q
  end.

Definition in_group (lab : string) (row : PopulationRow) : bool :=
  match age_group row with
  | Some g => (g =? lab)%string
  | None => false
  end.

(** Lines 494-496: the mean of one risk column over the rows of one
    band ([observed=True]: a band without rows gives no line). *)
Definition age_risk (col : PopulationRow -> Q) (lab : string)
    (processed_data : list PopulationRow) : option Q :=
  mean (map col (filter (in_group lab) processed_data)).

(** Lines 448-452: the rows with some risk at 70 or more. *)
Definition high_risk_count (processed_data : list PopulationRow) : nat :=
  length
    (filter
       (fun row =>
          (diabetes_risk row >=? 70) || (heart_disease_risk row >=? 70)
          || (hypertension_risk row >=? 70))
       processed_data).

(** Lines 245-247 of [display_risk_assessment]: the factors listed under
    "Primary Risk Factors" are those with a positive score. *)
Definition primary_risk_factors (result : ConditionAssessment) : RiskFactors :=
  filter (fun kv => snd kv >? 0) (risk_factors result).

(** The handler run once per submitted record, in order. *)
Definition submit_all (submissions : list PatientData) (st : Session)
  : Session :=
  fold_left (fun s p => fst (on_calculate p s)) submissions st.

(** The scores a session shows are those of the record it holds. *)
Definition session_consistent (st : Session) : Prop :=
  match patient_data st, risk_results st with
  | Some p, Some r => r = RiskCalculator.calculate_all_risks p
  | None, None => True
  | _, _ => False
  end.

End App.

(** ** watson_configuration.py: the rule-based parts of WatsonHealthcareAI *)

Module Watson.

Local Open Scope string_scope.
Local Open Scope py_scope.

(** Lines 299-308. *)
Definition _get_bmi_category (bmi : Q) : string :=
  if bmi <? 18.5 then "underweight"
  else if bmi <? 25 then "normal weight"
  else if bmi <? 30 then "overweight"
  else "obese".

(** Lines 310-319. *)
Definition _get_bp_category (systolic diastolic : Q) : string :=
  if (systolic <? 120) && (diastolic <? 80) then "normal"
  else if (systolic <? 130) && (diastolic <? 80) then "elevated"
  else if (systolic <? 140) || (diastolic <? 90) then "stage 1 hypertension"
  else "stage 2 hypertension".

Definition max_risk_of (risk_results : RiskAssessment) : R :=
  PyBuiltins.py_max_R
    (risk_percentage (diabetes risk_results))
    [ risk_percentage (heart_disease risk_results);
      risk_percentage (hypertension risk_results) ].

Definition rec_consultation :=
  "🚨 Immediate medical consultation recommended due to high risk profile".
Definition rec_weight :=
  "🎯 Weight management should be primary focus - consider structured program".
Definition rec_smoking :=
  "🚭 Smoking cessation is critical - significant impact on all risk factors".
Definition rec_activity :=
  "🏃 Increase physical activity to minimum 150 minutes moderate exercise per week".
Definition rec_diabetes :=
  "🍎 Diabetes management protocol needed - dietary and medication evaluation".
Definition rec_cholesterol :=
  "💊 Cholesterol management essential - consider lipid-lowering therapy".

(** [l.append(x)] under a condition. *)
Definition append_if (c : bool) (l : list string) (x : string) : list string :=
  if c then (l ++ [x])%list else l.

(** Lines 181-209: the list before the final slice. *)
Definition all_recommendations
    (patient_data : PatientData) (risk_results : RiskAssessment)
  : list string :=
  let recommendations : list string := [] in
  let max_risk := max_risk_of risk_results in
  let recommendations :=
    if Rge_dec max_risk 70 then (recommendations ++ [rec_consultation])%list
    else recommendations in
  let recommendations :=
    append_if (bmi patient_data >=? 30) recommendations rec_weight in
  let recommendations :=
    append_if (smoking patient_data =? "Current")%string
              recommendations rec_smoking in
  let recommendations :=
    append_if (exercise_days patient_data <? 3) recommendations rec_activity in
  let recommendations :=
    append_if (glucose patient_data >=? 126) recommendations rec_diabetes in
  let recommendations :=
    append_if (cholesterol patient_data >=? 240)
              recommendations rec_cholesterol in
  recommendations.

(** Lines 177-211; the Watson response is not read. *)
Definition _generate_ai_recommendations
    (patient_data : PatientData) (risk_results : RiskAssessment)
  : list string :=
  firstn 5 (all_recommendations patient_data risk_results).

Definition advice_65 :=
  "Focus on fall prevention, bone health, and regular health screenings".
Definition advice_50 :=
  "Prioritize preventive screenings and cardiovascular health monitoring".
Definition advice_35 :=
  "Establish healthy lifestyle patterns to prevent chronic disease development".
Definition advice_female :=
  "Consider bone density screening and discuss hormone-related health changes".
Definition advice_male :=
  "Regular cardiovascular monitoring is especially important".
Definition advice_diabetes :=
  "Monitor blood glucose regularly and focus on carbohydrate management".
Definition advice_heart :=
  "Heart-healthy diet with omega-3 fatty acids and regular cardio exercise".
Definition advice_hypertension :=
  "Sodium reduction and stress management techniques are essential".

(** Lines 213-247; the Watson response is not read. *)
Definition _generate_personalized_advice
    (patient_data : PatientData) (risk_results : RiskAssessment)
  : list string :=
  let advice : list string := [] in
  let age := age patient_data in
  let advice :=
    if age >=? 65 then (advice ++ [advice_65])%list
    else if age >=? 50 then (advice ++ [advice_50])%list
    else if age >=? 35 then (advice ++ [advice_35])%list
    else advice in
  let advice :=
    if (gender patient_data =? "Female")%string && (age >=? 50)
      then (advice ++ [advice_female])%list
    else if (gender patient_data =? "Male")%string && (age >=? 40)
      then (advice ++ [advice_male])%list
    else advice in
  let diabetes_risk := risk_percentage (diabetes risk_results) in
  let advice :=
    if Rge_dec diabetes_risk 40 then (advice ++ [advice_diabetes])%list else advice in
  let heart_risk := risk_percentage (heart_disease risk_results) in
  let advice :=
    if Rge_dec heart_risk 40 then (advice ++ [advice_heart])%list else advice in
  let hypertension_risk := risk_percentage (hypertension risk_results) in
  let advice :=
    if Rge_dec hypertension_risk 40 then (advice ++ [advice_hypertension])%list
    else advice in
  advice.

End Watson.

(** ** Sample records *)

Module Samples.

Local Open Scope string_scope.

(** Height 200 cm and weight 140 kg: a BMI of 35. *)
Definition boundary_record : PatientData :=
  {| age := 65; gender := "Male"; height_cm := 200; weight_kg := 140;
     bmi := 35; systolic_bp := 140; diastolic_bp := 80; resting_hr := 70;
     glucose := 126; cholesterol := 180; hdl := 30; ldl := 140;
     smoking := "Current"; exercise_days := 0; alcohol_drinks := 2;
     family_diabetes := true; family_heart_disease := false;
     family_hypertension := false;
     current_medications := ""; allergies := "" |}.

Definition other_gender_record : PatientData :=
  {| age := 60; gender := "Other"; height_cm := 170; weight_kg := 70;
     bmi := 24.2; systolic_bp := 118; diastolic_bp := 76; resting_hr := 66;
     glucose := 92; cholesterol := 185; hdl := 55; ldl := 110;
     smoking := "Never"; exercise_days := 3; alcohol_drinks := 1;
     family_diabetes := false; family_heart_disease := false;
     family_hypertension := false;
     current_medications := ""; allergies := "" |}.

(** Systolic and diastolic pressure both 80. *)
Definition flat_pressure_record : PatientData :=
  {| age := 40; gender := "Female"; height_cm := 165; weight_kg := 60;
     bmi := 22; systolic_bp := 80; diastolic_bp := 80; resting_hr := 64;
     glucose := 88; cholesterol := 170; hdl := 60; ldl := 100;
     smoking := "Never"; exercise_days := 4; alcohol_drinks := 0;
     family_diabetes := false; family_heart_disease := false;
     family_hypertension := false;
     current_medications := ""; allergies := "" |}.

(** Every protective branch taken and no risk branch. *)
Definition lowest_scores_record : PatientData :=
  {| age := 30; gender := "Female"; height_cm := 170; weight_kg := 60;
     bmi := 20.8; systolic_bp := 110; diastolic_bp := 70; resting_hr := 60;
     glucose := 85; cholesterol := 160; hdl := 65; ldl := 90;
     smoking := "Never"; exercise_days := 7; alcohol_drinks := 0;
     family_diabetes := false; family_heart_disease := false;
     family_hypertension := false;
     current_medications := ""; allergies := "" |}.

(** The top branch of every ladder of the three scorers. *)
Definition highest_scores_record : PatientData :=
  {| age := 70; gender := "Male"; height_cm := 170; weight_kg := 105;
     bmi := 36.3; systolic_bp := 165; diastolic_bp := 95; resting_hr := 88;
     glucose := 130; cholesterol := 250; hdl := 30; ldl := 170;
     smoking := "Current"; exercise_days := 0; alcohol_drinks := 15;
     family_diabetes := true; family_heart_disease := true;
     family_hypertension := true;
     current_medications := ""; allergies := "" |}.

Definition empty_session : App.Session :=
  {| App.patient_data := None; App.risk_results := None |}.

Definition mixed_row : App.PopulationRow :=
  {| App.row_age := 47; App.diabetes_risk := 10;
     App.heart_disease_risk := 80; App.hypertension_risk := 50 |}.

End Samples.

(** * Properties *)

(** ** Python comparisons as order facts *)

Module PyCmpFacts.

Import PyCmp.

Lemma geb_true (x y : Q) : geb x y = true <-> (y <= x)%Q.
Proof. unfold geb. apply Qle_bool_iff. Qed.

Lemma geb_false (x y : Q) : geb x y = false <-> (x < y)%Q.
Proof.
  unfold geb. rewrite <- not_true_iff_false, Qle_bool_iff.
  split; [apply Qnot_le_lt | apply Qlt_not_le].
Qed.

Lemma leb_true (x y : Q) : leb x y = true <-> (x <= y)%Q.
Proof. unfold leb. apply Qle_bool_iff. Qed.

Lemma leb_false (x y : Q) : leb x y = false <-> (y < x)%Q.
Proof. apply (geb_false y x). Qed.

Lemma ltb_true (x y : Q) : ltb x y = true <-> (x < y)%Q.
Proof. unfold ltb. rewrite negb_true_iff. apply geb_false. Qed.

Lemma ltb_false (x y : Q) : ltb x y = false <-> (y <= x)%Q.
Proof. unfold ltb. rewrite negb_false_iff. apply geb_true. Qed.

Lemma gtb_true (x y : Q) : gtb x y = true <-> (y < x)%Q.
Proof. apply (ltb_true y x). Qed.

Lemma gtb_false (x y : Q) : gtb x y = false <-> (x <= y)%Q.
Proof. apply (ltb_false y x). Qed.

(** The comparisons do not see the representation of a rational. *)
#[global] Instance geb_proper : Proper (Qeq ==> Qeq ==> eq) PyCmp.geb.
Proof. intros x x' Hx y y' Hy. unfold geb. now rewrite Hx, Hy. Qed.

#[global] Instance leb_proper : Proper (Qeq ==> Qeq ==> eq) PyCmp.leb.
Proof. intros x x' Hx y y' Hy. unfold leb. now rewrite Hx, Hy. Qed.

#[global] Instance ltb_proper : Proper (Qeq ==> Qeq ==> eq) PyCmp.ltb.
Proof. intros x x' Hx y y' Hy. unfold ltb. now rewrite Hx, Hy. Qed.

#[global] Instance gtb_proper : Proper (Qeq ==> Qeq ==> eq) PyCmp.gtb.
Proof. intros x x' Hx y y' Hy. unfold gtb. now rewrite Hx, Hy. Qed.

End PyCmpFacts.

(** ** The sigmoid *)

Section Sigmoid.

Import RiskCalculator.
Local Open Scope R_scope.

Lemma sigmoid_denominator_pos (x : R) : 0 < 1 + exp x.
Proof. pose proof (exp_pos x). lra. Qed.

Lemma sigmoid_pos (score scale : R) : 0 < sigmoid_transform score scale.
Proof.
  unfold sigmoid_transform.
  apply Rdiv_lt_0_compat; [lra | apply sigmoid_denominator_pos].
Qed.

Lemma sigmoid_lt_100 (score scale : R) :
  sigmoid_transform score scale < 100.
Proof.
  unfold sigmoid_transform.
  pose proof (exp_pos (- score / scale)) as He.
  apply Rmult_lt_reg_r with (1 + exp (- score / scale)); [lra |].
  unfold Rdiv. rewrite Rmult_assoc, Rinv_l by lra. lra.
Qed.

(** The value as a comparison on the exponential. *)
Lemma sigmoid_ge_iff (score scale c : R) :
  0 < c ->
  sigmoid_transform score scale >= c <->
  c * exp (- score / scale) <= 100 - c.
Proof.
  intros Hc. unfold sigmoid_transform.
  pose proof (exp_pos (- score / scale)) as He.
  set (e := exp (- score / scale)) in *.
  assert (Hd : 0 < 1 + e) by lra.
  assert (Heq : 100 / (1 + e) * (1 + e) = 100) by (field; lra).
  split; intros H.
  - assert (c * (1 + e) <= 100 / (1 + e) * (1 + e))
      by (apply Rmult_le_compat_r; lra).
    lra.
  - apply Rle_ge. apply Rmult_le_reg_r with (1 + e); lra.
Qed.

Lemma sigmoid_zero (scale : R) : sigmoid_transform 0 scale = 50.
Proof.
  unfold sigmoid_transform.
  replace (- 0 / scale) with 0 by (unfold Rdiv; ring).
  rewrite exp_0. lra.
Qed.

Lemma sigmoid_increasing (scale s1 s2 : R) :
  0 < scale -> s1 < s2 ->
  sigmoid_transform s1 scale < sigmoid_transform s2 scale.
Proof.
  intros Hs Hlt. unfold sigmoid_transform.
  assert (Harg : - s2 / scale < - s1 / scale).
  { unfold Rdiv. apply Rmult_lt_compat_r; [apply Rinv_0_lt_compat|]; lra. }
  apply exp_increasing in Harg.
  pose proof (exp_pos (- s2 / scale)).
  unfold Rdiv at 1 3. apply Rmult_lt_compat_l; [lra |].
  apply Rinv_lt_contravar; [|lra].
  apply Rmult_lt_0_compat; lra.
Qed.

Lemma sigmoid_nonneg_score (score scale : R) :
  0 < scale -> 0 <= score -> 50 <= sigmoid_transform score scale.
Proof.
  intros Hs [Hpos | <-].
  - rewrite <- (sigmoid_zero scale). left.
    now apply sigmoid_increasing.
  - rewrite sigmoid_zero. lra.
Qed.




End Sigmoid.

(** ** Rational bounds on the exponential *)

Section ExpBounds.

Local Open Scope R_scope.

Lemma exp_INR_mult (n : nat) (x : R) : exp (INR n * x) = exp x ^ n.
Proof.
  induction n as [| n IH].
  - simpl. rewrite Rmult_0_l. apply exp_0.
  - rewrite S_INR, Rmult_plus_distr_r, Rmult_1_l, exp_plus, IH.
    simpl. ring.
Qed.

Lemma exp_ge_pow (n : nat) (x : R) :
  0 <= 1 + x -> (1 + x) ^ n <= exp (INR n * x).
Proof.
  intros Hx. rewrite exp_INR_mult.
  apply pow_incr. split; [exact Hx | apply exp_ineq1_le].
Qed.

Lemma exp_le_pow (n : nat) (x : R) :
  x < 1 -> exp (INR n * x) <= (/ (1 - x)) ^ n.
Proof.
  intros Hx. rewrite exp_INR_mult.
  apply pow_incr. split; [left; apply exp_pos |].
  replace x with (- - x) at 1 by ring. rewrite exp_Ropp.
  apply Rinv_le_contravar; [lra |].
  pose proof (exp_ineq1_le (- x)). lra.
Qed.

Lemma ratio_pow (a b : Z) (n : nat) :
  (0 < b)%Z ->
  (IZR a / IZR b) ^ n = IZR (a ^ Z.of_nat n) / IZR (b ^ Z.of_nat n).
Proof.
  intros Hb. unfold Rdiv.
  rewrite Rpow_mult_distr, pow_inv, !pow_IZR. reflexivity.
Qed.

(** [c/d < exp (n * (a/b))], checked on integers. *)
Lemma exp_gt_ratio (a b c d : Z) (n : nat) :
  (0 < b)%Z -> (0 < d)%Z -> (0 <= a + b)%Z ->
  (c * b ^ Z.of_nat n < d * (a + b) ^ Z.of_nat n)%Z ->
  IZR c / IZR d < exp (INR n * (IZR a / IZR b)).
Proof.
  intros Hb Hd Hab Hlt.
  assert (HbR : 0 < IZR b) by now apply IZR_lt.
  assert (HdR : 0 < IZR d) by now apply IZR_lt.
  apply Rlt_le_trans with ((1 + IZR a / IZR b) ^ n).
  2:{ apply exp_ge_pow.
      replace (1 + IZR a / IZR b) with (IZR (a + b) / IZR b)
        by (rewrite plus_IZR; field; lra).
      apply Rmult_le_pos; [now apply IZR_le |].
      left. now apply Rinv_0_lt_compat. }
  replace (1 + IZR a / IZR b) with (IZR (a + b) / IZR b)
    by (rewrite plus_IZR; field; lra).
  rewrite ratio_pow by exact Hb.
  assert (HpR : 0 < IZR (b ^ Z.of_nat n)).
  { apply IZR_lt. apply Z.pow_pos_nonneg; lia. }
  apply IZR_lt in Hlt. rewrite !mult_IZR in Hlt.
  set (B := IZR (b ^ Z.of_nat n)) in *.
  set (A := IZR ((a + b) ^ Z.of_nat n)) in *.
  apply Rmult_lt_reg_r with (IZR d * B); [now apply Rmult_lt_0_compat |].
  replace (IZR c / IZR d * (IZR d * B)) with (IZR c * B) by (field; lra).
  replace (A / B * (IZR d * B)) with (IZR d * A) by (field; lra).
  exact Hlt.
Qed.

(** [exp (n * (a/b)) < c/d], checked on integers. *)
Lemma exp_lt_ratio (a b c d : Z) (n : nat) :
  (0 < b)%Z -> (0 < d)%Z -> (a < b)%Z ->
  (d * b ^ Z.of_nat n < c * (b - a) ^ Z.of_nat n)%Z ->
  exp (INR n * (IZR a / IZR b)) < IZR c / IZR d.
Proof.
  intros Hb Hd Hab Hlt.
  assert (HbR : 0 < IZR b) by now apply IZR_lt.
  assert (HdR : 0 < IZR d) by now apply IZR_lt.
  assert (HbaR : 0 < IZR (b - a)) by (apply IZR_lt; lia).
  assert (Hx : IZR a / IZR b < 1).
  { apply Rmult_lt_reg_r with (IZR b); [exact HbR |].
    replace (IZR a / IZR b * IZR b) with (IZR a) by (field; lra).
    rewrite Rmult_1_l. now apply IZR_lt. }
  apply Rle_lt_trans with ((/ (1 - IZR a / IZR b)) ^ n).
  { now apply exp_le_pow. }
  replace (/ (1 - IZR a / IZR b)) with (IZR b / IZR (b - a)).
  2:{ rewrite minus_IZR in *. field. lra. }
  rewrite ratio_pow by lia.
  assert (HpR : 0 < IZR ((b - a) ^ Z.of_nat n)).
  { apply IZR_lt. apply Z.pow_pos_nonneg; lia. }
  apply IZR_lt in Hlt. rewrite !mult_IZR in Hlt.
  set (B := IZR (b ^ Z.of_nat n)) in *.
  set (A := IZR ((b - a) ^ Z.of_nat n)) in *.
  apply Rmult_lt_reg_r with (IZR d * A); [now apply Rmult_lt_0_compat |].
  replace (B / A * (IZR d * A)) with (IZR d * B) by (field; lra).
  replace (IZR c / IZR d * (IZR d * A)) with (IZR c * A) by (field; lra).
  exact Hlt.
Qed.

(** The exponent of the boundary record of the diabetes scorer. *)
Lemma exp_47_16_bounds : 18.802 < exp (47 / 16) < 19.2.
Proof.
  split.
  - replace (47 / 16) with (INR 2048 * (IZR 47 / IZR 32768)).
    2:{ rewrite INR_IZR_INZ.
        change (Z.of_nat 2048) with 2048%Z. lra. }
    replace 18.802 with (IZR 18802 / IZR 1000) by lra.
    apply exp_gt_ratio; [lia | lia | lia | vm_compute; reflexivity].
  - replace (47 / 16) with (INR 512 * (IZR 47 / IZR 8192)).
    2:{ rewrite INR_IZR_INZ.
        change (Z.of_nat 512) with 512%Z. lra. }
    replace 19.2 with (IZR 192 / IZR 10) by lra.
    apply exp_lt_ratio; [lia | lia | lia | vm_compute; reflexivity].
Qed.

End ExpBounds.

(** ** Claims on the calculator *)

Section CalculatorFacts.

Import RiskCalculator.
Local Open Scope R_scope.

(** *** The level ladder *)

Lemma level_of_high (pct : R) : level_of pct = "High"%string <-> pct >= 70.
Proof.
  unfold level_of; simpl.
  destruct (Rge_dec pct 70); [tauto |].
  destruct (Rge_dec pct 40); split; intros; (discriminate || contradiction).
Qed.

Lemma level_of_medium (pct : R) :
  level_of pct = "Medium"%string <-> 40 <= pct < 70.
Proof.
  unfold level_of; simpl.
  destruct (Rge_dec pct 70).
  - split; [discriminate | lra].
  - destruct (Rge_dec pct 40); split; intros; try discriminate; try lra.
    reflexivity.
Qed.

Lemma level_of_low (pct : R) : level_of pct = "Low"%string <-> pct < 40.
Proof.
  unfold level_of; simpl.
  destruct (Rge_dec pct 70).
  - split; [discriminate | lra].
  - destruct (Rge_dec pct 40); split; intros; try discriminate; try lra.
    reflexivity.
Qed.

Lemma level_of_70 : level_of 70 = "High"%string.
Proof. apply level_of_high. lra. Qed.

Lemma level_of_40 : level_of 40 = "Medium"%string.
Proof. apply level_of_medium. lra. Qed.

Lemma level_of_39_999 : level_of 39.999 = "Low"%string.
Proof. apply level_of_low. lra. Qed.

Lemma assess_consistent (rf : RiskFactors) (scale : R) :
  let c := assess rf scale in
  0 <= risk_percentage c < 100 /\
  (risk_level c = "High"%string <-> risk_percentage c >= 70) /\
  (risk_level c = "Medium"%string <-> 40 <= risk_percentage c < 70) /\
  (risk_level c = "Low"%string <-> risk_percentage c < 40).
Proof.
  simpl. repeat apply conj.
  - left. apply sigmoid_pos.
  - apply sigmoid_lt_100.
  - apply level_of_high.
  - apply level_of_high.
  - apply level_of_medium.
  - apply level_of_medium.
  - apply level_of_low.
  - apply level_of_low.
Qed.

(** C1: for a record accepted by the validation, each of the three
    assessments has its percentage in [0, 100) and its level is High
    exactly from 70 up, Medium exactly on [40, 70), Low exactly below 40. *)
Theorem valid_record_percentage_and_level (p : PatientData) :
  Utils.valid (Utils.validate_health_metrics p) = true ->
  forall c : ConditionAssessment,
    In c [ diabetes (calculate_all_risks p);
           heart_disease (calculate_all_risks p);
           hypertension (calculate_all_risks p) ] ->
    0 <= risk_percentage c < 100 /\
    (risk_level c = "High"%string <-> risk_percentage c >= 70) /\
    (risk_level c = "Medium"%string <-> 40 <= risk_percentage c < 70) /\
    (risk_level c = "Low"%string <-> risk_percentage c < 40).
Proof.
  intros _ c [<- | [<- | [<- | []]]]; apply assess_consistent.
Qed.


Lemma valid_record_percentage_and_level_witness :
  Utils.valid (Utils.validate_health_metrics Samples.boundary_record) = true /\
  0 <= risk_percentage (calculate_diabetes_risk Samples.boundary_record)
    < 100.
Proof.
  split; [reflexivity |].
  apply (valid_record_percentage_and_level Samples.boundary_record);
    [reflexivity | now left].
Defined.

(** *** Breakdowns and totals *)

Local Open Scope Q_scope.
Local Open Scope py_scope.

(** Unfolds a scorer down to its ladders and their sum. *)
Ltac unfold_scorer :=
  unfold calculate_diabetes_risk, calculate_heart_disease_risk,
    calculate_hypertension_risk, assess, diabetes_factors,
    heart_disease_factors, hypertension_factors, sum_values;
  cbn [total_score risk_factors risk_percentage risk_level
       dict_set dict_get String.eqb Ascii.eqb Bool.eqb fold_left snd fst
       with_glucose with_exercise_hdl
       age gender bmi systolic_bp diastolic_bp glucose cholesterol hdl ldl
       smoking exercise_days alcohol_drinks family_diabetes
       family_heart_disease family_hypertension].

(** Splits on every test of a ladder, keeping the order facts. *)
Ltac split_ladders :=
  repeat match goal with
  | |- context [PyCmp.geb ?x ?c] =>
      let E := fresh "E" in
      destruct (PyCmp.geb x c) eqn:E;
      [apply PyCmpFacts.geb_true in E | apply PyCmpFacts.geb_false in E]
  | |- context [PyCmp.ltb ?x ?c] =>
      let E := fresh "E" in
      destruct (PyCmp.ltb x c) eqn:E;
      [apply PyCmpFacts.ltb_true in E | apply PyCmpFacts.ltb_false in E]
  end.

(** Replaces a field known up to [==] by its value inside the tests. *)
Ltac settle_tests :=
  repeat match goal with
  | H : ?x == ?v |- context [PyCmp.geb ?x ?c] =>
      replace (PyCmp.geb x c) with (PyCmp.geb v c) by (now rewrite H)
  | H : ?x == ?v |- context [PyCmp.ltb ?x ?c] =>
      replace (PyCmp.ltb x c) with (PyCmp.ltb v c) by (now rewrite H)
  | H : ?x == ?v |- context [PyCmp.gtb ?x ?c] =>
      replace (PyCmp.gtb x c) with (PyCmp.gtb v c) by (now rewrite H)
  end.

(** Evaluates the tests whose operands are literals. *)
Ltac eval_tests :=
  repeat match goal with
  | |- context [PyCmp.geb ?x ?c] =>
      let b := eval vm_compute in (PyCmp.geb x c) in
      match b with true => idtac | false => idtac end;
      change (PyCmp.geb x c) with b
  | |- context [PyCmp.ltb ?x ?c] =>
      let b := eval vm_compute in (PyCmp.ltb x c) in
      match b with true => idtac | false => idtac end;
      change (PyCmp.ltb x c) with b
  end; cbv iota.

Lemma sum_values_from (rf : RiskFactors) (acc : Q) :
  Forall (fun kv => 0 <= snd kv) rf ->
  acc <= fold_left (fun a kv => a + snd kv) rf acc.
Proof.
  intros H. revert acc.
  induction H as [| kv rf Hkv _ IH]; intros acc; simpl.
  - apply Qle_refl.
  - apply Qle_trans with (acc + snd kv); [Lqa.lra | apply IH].
Qed.

Lemma sum_values_nonneg (rf : RiskFactors) :
  Forall (fun kv => 0 <= snd kv) rf -> 0 <= sum_values rf.
Proof. apply sum_values_from. Qed.

Lemma diabetes_factors_nonneg (p : PatientData) :
  Forall (fun kv => 0 <= snd kv) (diabetes_factors p).
Proof.
  unfold_scorer.
  repeat constructor; cbn [snd];
    repeat match goal with
    | |- context [if ?b then _ else _] => destruct b
    end; easy.
Qed.

(** C10: every entry of the diabetes breakdown is non-negative; hence the
    diabetes total is at least 0, the percentage at least 50, and the
    level is never Low. *)
Theorem diabetes_never_low (p : PatientData) :
  let c := calculate_diabetes_risk p in
  Forall (fun kv => 0 <= snd kv) (risk_factors c) /\
  0 <= total_score c /\
  (50 <= risk_percentage c)%R /\
  risk_level c <> "Low"%string /\
  (risk_level c = "Medium"%string \/ risk_level c = "High"%string).
Proof.
  intros c.
  assert (Hrf : Forall (fun kv => 0 <= snd kv) (risk_factors c))
    by apply diabetes_factors_nonneg.
  assert (Htot : 0 <= total_score c) by now apply sum_values_nonneg.
  assert (Hpct : (50 <= risk_percentage c)%R).
  { apply sigmoid_nonneg_score; [lra |].
    apply Qle_Rle in Htot. now rewrite RMicromega.Q2R_0 in Htot. }
  change (risk_level c) with (level_of (risk_percentage c)).
  repeat split; trivial.
  - intros Hlow. apply level_of_low in Hlow. lra.
  - destruct (Rge_dec (risk_percentage c) 70) as [Hhi | Hlo].
    + right. now apply level_of_high.
    + left. apply level_of_medium. lra.
Qed.

Lemma glucose_ladder_monotone (g1 g2 : Q) :
  g1 <= g2 ->
  (if g1 >=? 126 then 5.0 else if g1 >=? 100 then 3.0
   else if g1 >=? 90 then 1.0 else 0.0) <=
  (if g2 >=? 126 then 5.0 else if g2 >=? 100 then 3.0
   else if g2 >=? 90 then 1.0 else 0.0).
Proof. intros H. split_ladders; try easy; Lqa.lra. Qed.

(** C4: of two records that differ in the glucose field only, the one
    with the greater or equal glucose has the greater or equal diabetes
    total score. *)
Theorem diabetes_total_monotone_in_glucose (p1 p2 : PatientData) :
  p2 = with_glucose p1 (glucose p2) ->
  glucose p1 <= glucose p2 ->
  total_score (calculate_diabetes_risk p1) <=
  total_score (calculate_diabetes_risk p2).
Proof.
  intros -> Hle. cbn [glucose with_glucose] in Hle.
  pose proof (glucose_ladder_monotone _ _ Hle) as Hg.
  unfold_scorer. Lqa.lra.
Qed.


Lemma diabetes_total_monotone_in_glucose_witness :
  let p1 := with_glucose Samples.boundary_record 95 in
  let p2 := with_glucose Samples.boundary_record 130 in
  p2 = with_glucose p1 (glucose p2) /\
  glucose p1 <= glucose p2 /\
  total_score (calculate_diabetes_risk p1) <=
  total_score (calculate_diabetes_risk p2).
Proof.
  intros p1 p2.
  assert (Hsame : p2 = with_glucose p1 (glucose p2)) by reflexivity.
  assert (Hle : glucose p1 <= glucose p2) by (now apply Qle_bool_imp_le).
  split; [exact Hsame |]. split; [exact Hle |].
  exact (diabetes_total_monotone_in_glucose p1 p2 Hsame Hle).
Defined.

(** The percentage for the total 23.5 on scale 8. *)
Lemma sigmoid_23_5 :
  (94.95 < sigmoid_transform 23.5 8.0 < 95.05)%R.
Proof.
  unfold sigmoid_transform.
  match goal with
  | |- context [exp ?a] => replace a with (- (47 / 16))%R by lra
  end.
  rewrite exp_Ropp.
  destruct exp_47_16_bounds as [Hlo Hhi].
  set (E := exp (47 / 16)) in *.
  assert (HE : (0 < E)%R) by lra.
  replace (100 / (1 + / E))%R with (100 * E / (E + 1))%R by (field; lra).
  split.
  - apply Rmult_lt_reg_r with (E + 1)%R; [lra |].
    replace (100 * E / (E + 1) * (E + 1))%R with (100 * E)%R
      by (field; lra).
    lra.
  - apply Rmult_lt_reg_r with (E + 1)%R; [lra |].
    replace (100 * E / (E + 1) * (E + 1))%R with (100 * E)%R
      by (field; lra).
    lra.
Qed.

(** C2: the record with age 65, BMI 35, glucose 126, systolic 140, no
    exercise, current smoker, family history of diabetes and HDL 30 gets
    the breakdown 3, 4, 5, 2, 2, 2.5, 3, 2, the total 23.5, the percentage
    [100 / (1 + e^(-23.5/8))], which is 95.0 to one decimal, and the
    level High. *)
Theorem diabetes_boundary_record (p : PatientData) :
  age p == 65 -> bmi p == 35 -> glucose p == 126 ->
  systolic_bp p == 140 -> exercise_days p == 0 ->
  smoking p = "Current"%string -> family_diabetes p = true ->
  hdl p == 30 ->
  let c := calculate_diabetes_risk p in
  map snd (risk_factors c) = [3.0; 4.0; 5.0; 2.0; 2.0; 2.5; 3.0; 2.0] /\
  total_score c == 3 + 4 + 5 + 2 + 2 + 2.5 + 3 + 2 /\
  total_score c == 23.5 /\
  risk_percentage c = (100 / (1 + exp (- 23.5 / 8)))%R /\
  (94.95 < risk_percentage c < 95.05)%R /\
  risk_level c = "High"%string.
Proof.
  intros Ha Hb Hg Hs He Hsm Hf Hh c.
  assert (Hfactors :
    map snd (risk_factors c) = [3.0; 4.0; 5.0; 2.0; 2.0; 2.5; 3.0; 2.0]).
  { subst c. unfold_scorer. rewrite Hsm, Hf. settle_tests.
    reflexivity. }
  assert (Htotal : total_score c == 23.5).
  { subst c. unfold_scorer. rewrite Hsm, Hf. settle_tests.
    reflexivity. }
  assert (Hscore : Q2R (total_score c) = 23.5%R).
  { rewrite (Qeq_eqR _ _ Htotal). unfold Q2R. simpl. lra. }
  assert (Hpct : risk_percentage c = sigmoid_transform 23.5 8.0).
  { change (risk_percentage c)
      with (sigmoid_transform (Q2R (total_score c)) 8.0).
    now rewrite Hscore. }
  repeat apply conj.
  - exact Hfactors.
  - rewrite Htotal. reflexivity.
  - exact Htotal.
  - rewrite Hpct. unfold sigmoid_transform. do 3 f_equal. lra.
  - rewrite Hpct. apply sigmoid_23_5.
  - rewrite Hpct. apply sigmoid_23_5.
  - change (risk_level c) with (level_of (risk_percentage c)).
    apply level_of_high. rewrite Hpct.
    pose proof sigmoid_23_5. lra.
Qed.


Lemma diabetes_boundary_record_witness :
  let p := Samples.boundary_record in
  (age p == 65 /\ bmi p == 35 /\ glucose p == 126 /\ systolic_bp p == 140 /\
   exercise_days p == 0 /\ smoking p = "Current"%string /\
   family_diabetes p = true /\ hdl p == 30) /\
  total_score (calculate_diabetes_risk p) == 23.5 /\
  risk_level (calculate_diabetes_risk p) = "High"%string.
Proof.
  intros p.
  split; [repeat split |].
  destruct (diabetes_boundary_record p) as [_ [_ [Htotal [_ [_ Hlevel]]]]];
    try reflexivity.
  split; [exact Htotal | exact Hlevel].
Defined.

(** *** Heart disease: protective factors and the age-gender rule *)

Lemma heart_exercise_7 (p : PatientData) :
  exercise_days p == 7 ->
  dict_get (risk_factors (calculate_heart_disease_risk p)) "exercise_risk"
  = Some (-1.0).
Proof. intros He. unfold_scorer. settle_tests. reflexivity. Qed.

Lemma heart_hdl_65 (p : PatientData) :
  hdl p == 65 ->
  dict_get (risk_factors (calculate_heart_disease_risk p)) "hdl_risk"
  = Some (-1.0).
Proof. intros Hh. unfold_scorer. settle_tests. reflexivity. Qed.

(** C7: in the heart-disease breakdown, 7 exercise days contribute
    exactly -1 and an HDL of 65 contributes exactly -1; a record with both
    has a strictly lower total than the record that differs from it only
    by 1 exercise day and an HDL of 45. *)
Theorem heart_protective_factors (p1 p2 : PatientData) :
  exercise_days p1 == 7 -> hdl p1 == 65 ->
  exercise_days p2 == 1 -> hdl p2 == 45 ->
  p2 = with_exercise_hdl p1 (exercise_days p2) (hdl p2) ->
  let c1 := calculate_heart_disease_risk p1 in
  let c2 := calculate_heart_disease_risk p2 in
  dict_get (risk_factors c1) "exercise_risk" = Some (-1.0) /\
  dict_get (risk_factors c1) "hdl_risk" = Some (-1.0) /\
  total_score c1 < total_score c2.
Proof.
  intros He1 Hh1 He2 Hh2 Hsame c1 c2.
  split; [now apply heart_exercise_7 |].
  split; [now apply heart_hdl_65 |].
  subst c1 c2. rewrite Hsame.
  unfold_scorer. settle_tests. eval_tests.
  Lqa.lra.
Qed.


Lemma heart_protective_factors_witness :
  let p1 := with_exercise_hdl Samples.boundary_record 7 65 in
  let p2 := with_exercise_hdl Samples.boundary_record 1 45 in
  (exercise_days p1 == 7 /\ hdl p1 == 65 /\
   exercise_days p2 == 1 /\ hdl p2 == 45 /\
   p2 = with_exercise_hdl p1 (exercise_days p2) (hdl p2)) /\
  total_score (calculate_heart_disease_risk p1) <
  total_score (calculate_heart_disease_risk p2).
Proof.
  intros p1 p2.
  split; [repeat split |].
  apply (heart_protective_factors p1 p2); reflexivity.
Defined.

(** C9: a record whose gender is not "Male", "Other" included, gets the
    age-gender contribution of the female thresholds: 3 from 65, 2 from
    55, 0 below. *)
Theorem heart_age_gender_not_male (p : PatientData) :
  gender p <> "Male"%string ->
  dict_get (risk_factors (calculate_heart_disease_risk p)) "age_gender_risk"
  = Some (if age p >=? 65 then 3.0 else if age p >=? 55 then 2.0 else 0.0).
Proof.
  intros Hg. unfold_scorer.
  destruct (String.eqb_spec (gender p) "Male") as [Heq | _];
    [contradiction | reflexivity].
Qed.


Lemma heart_age_gender_not_male_witness :
  gender Samples.other_gender_record <> "Male"%string /\
  dict_get
    (risk_factors (calculate_heart_disease_risk Samples.other_gender_record))
    "age_gender_risk"
  = Some 2.0.
Proof.
  assert (Hg : gender Samples.other_gender_record <> "Male"%string)
    by discriminate.
  split; [exact Hg |].
  exact (heart_age_gender_not_male Samples.other_gender_record Hg).
Defined.

End CalculatorFacts.

(** ** Claims on the validation gate *)

Section ValidationGate.

Import Utils App.
Local Open Scope Q_scope.
Local Open Scope py_scope.

Lemma rejected_message_nonempty (p : PatientData) :
  valid (validate_health_metrics p) = false ->
  message (validate_health_metrics p) <> EmptyString.
Proof.
  unfold validate_health_metrics.
  repeat match goal with
  | |- context [if ?b then _ else _] => destruct b
  end; cbn [valid message reject]; discriminate.
Qed.

(** C6: a record whose systolic pressure is not above its diastolic
    pressure is rejected by [validate_health_metrics] with one of its
    reason strings (the pressure-order one when the four earlier range
    checks pass); the handler then reports the error, leaves the session
    as it was and makes no scoring call. *)
Theorem pressure_order_blocks_assessment
    (p : PatientData) (st : Session) :
  systolic_bp p <= diastolic_bp p ->
  let v := validate_health_metrics p in
  valid v = false /\
  In (message v)
     [msg_age; msg_bmi; msg_systolic; msg_diastolic; msg_pressure_order] /\
  (18 <= age p <= 120 -> 10 <= bmi p <= 100 ->
   70 <= systolic_bp p <= 250 -> 40 <= diastolic_bp p <= 150 ->
   message v = msg_pressure_order) /\
  on_calculate p st = (st, [StError ("Validation Error: " ++ message v)]) /\
  existsb is_scoring_call (snd (on_calculate p st)) = false /\
  risk_results (fst (on_calculate p st)) = risk_results st.
Proof.
  intros Hle v.
  apply PyCmpFacts.leb_true in Hle.
  assert (Hshape :
    valid v = false /\
    In (message v)
       [msg_age; msg_bmi; msg_systolic; msg_diastolic; msg_pressure_order]).
  { subst v. unfold validate_health_metrics. rewrite Hle.
    repeat match goal with
    | |- context [if ?b then _ else _] => destruct b
    end; cbn [valid message reject In]; (split; [reflexivity | auto 10]). }
  destruct Hshape as [Hvalid Hmsg].
  assert (Hrun :
    on_calculate p st = (st, [StError ("Validation Error: " ++ message v)])).
  { unfold on_calculate. fold v. now rewrite Hvalid. }
  repeat apply conj; trivial.
  - intros [Ha1 Ha2] [Hb1 Hb2] [Hs1 Hs2] [Hd1 Hd2].
    subst v. unfold validate_health_metrics.
    apply PyCmpFacts.ltb_false in Ha1, Hb1, Hs1, Hd1.
    apply PyCmpFacts.gtb_false in Ha2, Hb2, Hs2, Hd2.
    rewrite Ha1, Ha2, Hb1, Hb2, Hs1, Hs2, Hd1, Hd2, Hle. reflexivity.
  - now rewrite Hrun.
  - now rewrite Hrun.
Qed.


Lemma pressure_order_blocks_assessment_witness :
  systolic_bp Samples.flat_pressure_record
    <= diastolic_bp Samples.flat_pressure_record /\
  valid (validate_health_metrics Samples.flat_pressure_record) = false /\
  message (validate_health_metrics Samples.flat_pressure_record)
    = msg_pressure_order /\
  on_calculate Samples.flat_pressure_record Samples.empty_session
    = (Samples.empty_session,
       [StError ("Validation Error: " ++ msg_pressure_order)]).
Proof.
  assert (Hle : systolic_bp Samples.flat_pressure_record
                <= diastolic_bp Samples.flat_pressure_record)
    by (now apply Qle_bool_imp_le).
  split; [exact Hle |].
  destruct (pressure_order_blocks_assessment
              Samples.flat_pressure_record Samples.empty_session Hle)
    as [Hvalid [_ [Hmsg [Hrun _]]]].
  split; [exact Hvalid |].
  split; [reflexivity | exact Hrun].
Defined.

End ValidationGate.

(** ** Claims on the population loops *)

Section Population.

Import App.
Local Open Scope Q_scope.
Local Open Scope py_scope.

#[local] Instance tier_of_proper : Proper (Qeq ==> eq) tier_of.
Proof.
  intros x y Hxy. unfold tier_of.
  rewrite (PyCmpFacts.geb_proper x y Hxy 70 70 (Qeq_refl 70)).
  rewrite (PyCmpFacts.geb_proper x y Hxy 40 40 (Qeq_refl 40)).
  reflexivity.
Qed.

Lemma py_max_from_is_maximum (t : list Q) :
  forall x, is_maximum (py_max_from x t) (x :: t).
Proof.
  induction t as [| y t IH]; intros x.
  - split; [now left |]. intros z [<- | []]. apply Qle_refl.
  - unfold is_maximum, py_max_from in *. cbn [fold_left].
    destruct (y >? x) eqn:E.
    + apply PyCmpFacts.gtb_true in E.
      destruct (IH y) as [Hin Hub]. split.
      * right. exact Hin.
      * intros z [<- | Hz]; [| now apply Hub].
        apply Qle_trans with y; [now apply Qlt_le_weak |].
        apply Hub. now left.
    + apply PyCmpFacts.gtb_false in E.
      destruct (IH x) as [Hin Hub]. split.
      * destruct Hin as [Heq | Hin]; [now left | right; now right].
      * intros z [<- | [<- | Hz]].
        -- apply Hub. now left.
        -- apply Qle_trans with x; [exact E | apply Hub; now left].
        -- apply Hub. now right.
Qed.

Lemma maximum_unique (l l' : list Q) (m m' : Q) :
  Permutation l l' -> is_maximum m l -> is_maximum m' l' -> m == m'.
Proof.
  intros Hperm [Hin Hub] [Hin' Hub'].
  apply Qle_antisym.
  - apply Hub'. now apply (Permutation_in _ Hperm).
  - apply Hub. now apply (Permutation_in _ (Permutation_sym Hperm)).
Qed.

Lemma row_risk_level_maximum (row : PopulationRow) :
  exists m, is_maximum m (row_risks row) /\ row_risk_level row = tier_of m.
Proof.
  eexists. split; [apply py_max_from_is_maximum | reflexivity].
Qed.

Lemma tier_of_thresholds (m : Q) :
  (70 <= m -> tier_of m = "High"%string) /\
  (40 <= m -> m < 70 -> tier_of m = "Medium"%string) /\
  (m < 40 -> tier_of m = "Low"%string).
Proof.
  unfold tier_of.
  destruct (m >=? 70) eqn:E70; [apply PyCmpFacts.geb_true in E70
                               | apply PyCmpFacts.geb_false in E70];
  (destruct (m >=? 40) eqn:E40; [apply PyCmpFacts.geb_true in E40
                                | apply PyCmpFacts.geb_false in E40]);
  repeat split; intros; try reflexivity; exfalso; Lqa.lra.
Qed.

(** C8: the label of a row is the tier of the maximum of its three risk
    percentages (High from 70, Medium from 40, Low below), whatever the
    order in which the three percentages are listed. *)
Theorem risk_label_is_tier_of_maximum
    (row : PopulationRow) (l : list Q) (m : Q) :
  Permutation l (row_risks row) ->
  In m l -> (forall x, In x l -> x <= m) ->
  option_map tier_of (py_max l) = Some (row_risk_level row) /\
  (70 <= m -> row_risk_level row = "High"%string) /\
  (40 <= m -> m < 70 -> row_risk_level row = "Medium"%string) /\
  (m < 40 -> row_risk_level row = "Low"%string).
Proof.
  intros Hperm Hin Hub.
  destruct (row_risk_level_maximum row) as [m0 [Hmax0 Hlabel]].
  assert (Hm : m == m0).
  { apply (maximum_unique l (row_risks row)); [exact Hperm | | exact Hmax0].
    now split. }
  split.
  - destruct l as [| x t]; [destruct Hin |].
    cbn [py_max option_map]. f_equal.
    rewrite Hlabel. apply tier_of_proper.
    apply (maximum_unique (x :: t) (row_risks row));
      [exact Hperm | apply py_max_from_is_maximum | exact Hmax0].
  - rewrite Hlabel, <- Hm. apply tier_of_thresholds.
Qed.


Lemma risk_label_is_tier_of_maximum_witness :
  let l := [50; 10; 80] in
  Permutation l (row_risks Samples.mixed_row) /\
  In 80 l /\ (forall x, In x l -> x <= 80) /\
  option_map tier_of (py_max l) = Some (row_risk_level Samples.mixed_row) /\
  row_risk_level Samples.mixed_row = "High"%string.
Proof.
  intros l.
  assert (Hperm : Permutation l (row_risks Samples.mixed_row)).
  { unfold l, row_risks. cbn.
    apply perm_trans with [10; 50; 80]; [apply perm_swap |].
    apply perm_skip. apply perm_swap. }
  assert (Hin : In 80 l) by (right; right; now left).
  assert (Hub : forall x, In x l -> x <= 80).
  { intros x [<- | [<- | [<- | []]]]; now apply Qle_bool_imp_le. }
  destruct (risk_label_is_tier_of_maximum Samples.mixed_row l 80
              Hperm Hin Hub) as [Hmax [Hhigh _]].
  split; [exact Hperm |]. split; [exact Hin |]. split; [exact Hub |].
  split; [exact Hmax |].
  apply Hhigh. now apply Qle_bool_imp_le.
Defined.

(** The bands as the code cuts them. *)
Lemma age_group_bands (row : PopulationRow) :
  (0 < row_age row -> row_age row <= 30 ->
     age_group row = Some "<30"%string) /\
  (30 < row_age row -> row_age row <= 50 ->
     age_group row = Some "30-50"%string) /\
  (50 < row_age row -> row_age row <= 70 ->
     age_group row = Some "50-70"%string) /\
  (70 < row_age row -> row_age row <= 100 ->
     age_group row = Some "70+"%string) /\
  (100 < row_age row -> age_group row = None).
Proof.
  unfold age_group, age_bins, age_labels. cbn [pd_cut].
  repeat match goal with
  | |- context [PyCmp.ltb ?x ?c] =>
      let E := fresh "E" in
      destruct (PyCmp.ltb x c) eqn:E;
      [apply PyCmpFacts.ltb_true in E | apply PyCmpFacts.ltb_false in E]
  | |- context [PyCmp.leb ?x ?c] =>
      let E := fresh "E" in
      destruct (PyCmp.leb x c) eqn:E;
      [apply PyCmpFacts.leb_true in E | apply PyCmpFacts.leb_false in E]
  end; cbn [andb]; repeat split; intros;
    try reflexivity; exfalso; Lqa.lra.
Qed.

(** C5, as the code runs: the bands are closed on the right. Ages 30, 50
    and 70 fall in the bands labelled "<30", "30-50" and "50-70", and an
    age above 100 falls in no band, so that row is left out of every
    mean. *)
Theorem age_group_at_the_band_edges :
  age_group (mkRow 30 80 10 10) = Some "<30"%string /\
  age_group (mkRow 50 80 10 10) = Some "30-50"%string /\
  age_group (mkRow 70 80 10 10) = Some "50-70"%string /\
  age_group (mkRow 101 80 10 10) = None /\
  option_map Qred
    (age_risk diabetes_risk "<30" [mkRow 30 80 10 10; mkRow 20 20 10 10])
  = Some 50 /\
  age_risk diabetes_risk "30-50"
    [mkRow 30 80 10 10; mkRow 20 20 10 10] = None.
Proof. repeat split. Qed.

End Population.

(** * Further properties of the code *)

(** ** Ranges of the three totals *)

Section ScoreRanges.

Import RiskCalculator.
Local Open Scope Q_scope.
Local Open Scope py_scope.

Lemma range_const (c : Q) : c <= c /\ c <= c.
Proof. split; apply Qle_refl. Qed.

Lemma range_add (a b c d x y : Q) :
  a <= x /\ x <= b -> c <= y /\ y <= d ->
  a + c <= x + y /\ x + y <= b + d.
Proof. intros [H1 H2] [H3 H4]. split; Lqa.lra. Qed.

Lemma range_if (t : bool) (a b c d x y : Q) :
  a <= x /\ x <= b -> c <= y /\ y <= d ->
  Qmin a c <= (if t then x else y) /\ (if t then x else y) <= Qmax b d.
Proof.
  intros [H1 H2] [H3 H4].
  pose proof (Q.le_min_l a c). pose proof (Q.le_min_r a c).
  pose proof (Q.le_max_l b d). pose proof (Q.le_max_r b d).
  destruct t; split; Lqa.lra.
Qed.

Lemma range_weaken (a b a' b' x : Q) :
  a <= x /\ x <= b -> a' <= a -> b <= b' -> a' <= x /\ x <= b'.
Proof. intros [H1 H2] H3 H4. split; Lqa.lra. Qed.

(** Bounds a sum of ladders by the least and greatest branch of each. *)
Ltac ladder_range :=
  eapply range_weaken;
  [ repeat first [ eapply range_add | eapply range_if | apply range_const ]
  | apply Qle_bool_imp_le; vm_compute; reflexivity
  | apply Qle_bool_imp_le; vm_compute; reflexivity ].

Ltac open_scorer :=
  unfold calculate_diabetes_risk, calculate_heart_disease_risk,
    calculate_hypertension_risk, assess, diabetes_factors,
    heart_disease_factors, hypertension_factors, sum_values;
  cbn [total_score risk_factors risk_percentage risk_level
       dict_set dict_get String.eqb Ascii.eqb Bool.eqb fold_left snd fst
       with_glucose with_exercise_hdl with_gender
       age gender bmi systolic_bp diastolic_bp glucose cholesterol hdl ldl
       smoking exercise_days alcohol_drinks family_diabetes
       family_heart_disease family_hypertension].

Lemma diabetes_total_bounds (p : PatientData) :
  0 <= total_score (calculate_diabetes_risk p) /\
  total_score (calculate_diabetes_risk p) <= 23.5.
Proof. open_scorer. ladder_range. Qed.

Lemma heart_total_bounds (p : PatientData) :
  -2 <= total_score (calculate_heart_disease_risk p) /\
  total_score (calculate_heart_disease_risk p) <= 29.
Proof. open_scorer. ladder_range. Qed.

Lemma hypertension_total_bounds (p : PatientData) :
  -1.5 <= total_score (calculate_hypertension_risk p) /\
  total_score (calculate_hypertension_risk p) <= 22.
Proof. open_scorer. ladder_range. Qed.

End ScoreRanges.

Section TotalsAndLevels.

Import RiskCalculator.
Local Open Scope R_scope.

(** X1: the diabetes total lies in [0, 23.5] and both ends are reached by
    records that pass the validation. *)
Theorem diabetes_total_range :
  (forall p, (0 <= total_score (calculate_diabetes_risk p) /\
              total_score (calculate_diabetes_risk p) <= 23.5)%Q) /\
  (exists p, Utils.valid (Utils.validate_health_metrics p) = true /\
     (total_score (calculate_diabetes_risk p) == 0)%Q) /\
  (exists p, Utils.valid (Utils.validate_health_metrics p) = true /\
     (total_score (calculate_diabetes_risk p) == 23.5)%Q).
Proof.
  split; [exact diabetes_total_bounds |]. split.
  - exists Samples.lowest_scores_record. split; reflexivity.
  - exists Samples.boundary_record. split; reflexivity.
Qed.

(** X2: the heart-disease total lies in [-2, 29] and both ends are
    reached by records that pass the validation. *)
Theorem heart_total_range :
  (forall p, (-2 <= total_score (calculate_heart_disease_risk p) /\
              total_score (calculate_heart_disease_risk p) <= 29)%Q) /\
  (exists p, Utils.valid (Utils.validate_health_metrics p) = true /\
     (total_score (calculate_heart_disease_risk p) == -2)%Q) /\
  (exists p, Utils.valid (Utils.validate_health_metrics p) = true /\
     (total_score (calculate_heart_disease_risk p) == 29)%Q).
Proof.
  split; [exact heart_total_bounds |]. split.
  - exists Samples.lowest_scores_record. split; reflexivity.
  - exists Samples.highest_scores_record. split; reflexivity.
Qed.

(** X3: the hypertension total lies in [-1.5, 22] and both ends are
    reached by records that pass the validation. *)
Theorem hypertension_total_range :
  (forall p, (-1.5 <= total_score (calculate_hypertension_risk p) /\
              total_score (calculate_hypertension_risk p) <= 22)%Q) /\
  (exists p, Utils.valid (Utils.validate_health_metrics p) = true /\
     (total_score (calculate_hypertension_risk p) == -1.5)%Q) /\
  (exists p, Utils.valid (Utils.validate_health_metrics p) = true /\
     (total_score (calculate_hypertension_risk p) == 22)%Q).
Proof.
  split; [exact hypertension_total_bounds |]. split.
  - exists Samples.lowest_scores_record. split; reflexivity.
  - exists Samples.highest_scores_record. split; reflexivity.
Qed.

(** The sigmoid only sees the quotient of score and scale. *)
Lemma sigmoid_quotient_le (s1 c1 s2 c2 : R) :
  s1 / c1 <= s2 / c2 ->
  sigmoid_transform s1 c1 <= sigmoid_transform s2 c2.
Proof.
  intros H. unfold sigmoid_transform.
  replace (- s1 / c1) with (- (s1 / c1)) by (unfold Rdiv; ring).
  replace (- s2 / c2) with (- (s2 / c2)) by (unfold Rdiv; ring).
  assert (He : exp (- (s2 / c2)) <= exp (- (s1 / c1))).
  { destruct H as [H | H].
    - left. apply exp_increasing. lra.
    - rewrite H. right. reflexivity. }
  pose proof (exp_pos (- (s2 / c2))) as Hp.
  unfold Rdiv at 1 3. apply Rmult_le_compat_l; [lra |].
  apply Rinv_le_contravar; lra.
Qed.

(** [sigmoid x 1] against a bound on [exp x]. *)
Lemma logistic_gt (x c k : R) :
  0 < c < 100 -> 0 < k -> exp (- x) < k -> c * (1 + k) <= 100 ->
  c < sigmoid_transform x 1.
Proof.
  intros Hc Hk He Hck. unfold sigmoid_transform.
  replace (- x / 1) with (- x) by (unfold Rdiv; field).
  pose proof (exp_pos (- x)) as Hp.
  apply Rmult_lt_reg_r with (1 + exp (- x)); [lra |].
  replace (100 / (1 + exp (- x)) * (1 + exp (- x))) with 100
    by (field; lra).
  nra.
Qed.

Lemma logistic_lt (x c k : R) :
  0 < c < 100 -> 0 < k -> k < exp (- x) -> 100 <= c * (1 + k) ->
  sigmoid_transform x 1 < c.
Proof.
  intros Hc Hk He Hck. unfold sigmoid_transform.
  replace (- x / 1) with (- x) by (unfold Rdiv; field).
  apply Rmult_lt_reg_r with (1 + exp (- x)); [lra |].
  replace (100 / (1 + exp (- x)) * (1 + exp (- x))) with 100
    by (field; lra).
  nra.
Qed.

Lemma exp_fifth_lt : exp (1 / 5) < 11 / 9.
Proof.
  replace (1 / 5) with (INR 64 * (IZR 1 / IZR 320)).
  2:{ rewrite INR_IZR_INZ. change (Z.of_nat 64) with 64%Z. lra. }
  replace (11 / 9) with (IZR 11 / IZR 9) by lra.
  apply exp_lt_ratio; [lia | lia | lia | vm_compute; reflexivity].
Qed.

(** The least percentage any scorer can return is above 45. *)
Lemma logistic_above_45 (x : R) : - (1 / 5) <= x -> 45 < sigmoid_transform x 1.
Proof.
  intros Hx.
  apply Rlt_le_trans with (sigmoid_transform (- (1 / 5)) 1).
  - apply logistic_gt with (k := 11 / 9); try lra.
    replace (- - (1 / 5)) with (1 / 5) by ring. apply exp_fifth_lt.
  - apply sigmoid_quotient_le. lra.
Qed.

Lemma logistic_below_95_05 (x : R) :
  x <= 47 / 16 -> sigmoid_transform x 1 < 95.05.
Proof.
  intros Hx.
  apply Rle_lt_trans with (sigmoid_transform 23.5 8.0).
  - apply sigmoid_quotient_le. lra.
  - apply sigmoid_23_5.
Qed.

Lemma percentage_as_logistic (rf : RiskFactors) (scale : R) :
  risk_percentage (assess rf scale)
  = sigmoid_transform (Q2R (sum_values rf) / scale) 1.
Proof.
  cbn [risk_percentage assess]. unfold sigmoid_transform. f_equal. f_equal.
  f_equal. unfold Rdiv. rewrite Rinv_1. ring.
Qed.

Lemma Q2R_between (lo hi q : Q) :
  (lo <= q /\ q <= hi)%Q -> Q2R lo <= Q2R q <= Q2R hi.
Proof. intros [H1 H2]. split; now apply Qle_Rle. Qed.

Lemma percentage_bounds (p : PatientData) (c : ConditionAssessment) :
  In c [ diabetes (calculate_all_risks p);
         heart_disease (calculate_all_risks p);
         hypertension (calculate_all_risks p) ] ->
  45 < risk_percentage c < 95.05.
Proof.
  intros [<- | [<- | [<- | []]]]; cbn [diabetes heart_disease hypertension
                                       calculate_all_risks].
  - pose proof (Q2R_between _ _ _ (diabetes_total_bounds p)) as H.
    unfold calculate_diabetes_risk in *. rewrite percentage_as_logistic.
    cbn [total_score assess] in H.
    set (t := Q2R (sum_values _)) in *.
    split; [apply logistic_above_45 | apply logistic_below_95_05]; lra.
  - pose proof (Q2R_between _ _ _ (heart_total_bounds p)) as H.
    unfold calculate_heart_disease_risk in *. rewrite percentage_as_logistic.
    cbn [total_score assess] in H.
    set (t := Q2R (sum_values _)) in *.
    split; [apply logistic_above_45 | apply logistic_below_95_05]; lra.
  - pose proof (Q2R_between _ _ _ (hypertension_total_bounds p)) as H.
    unfold calculate_hypertension_risk in *. rewrite percentage_as_logistic.
    cbn [total_score assess] in H.
    set (t := Q2R (sum_values _)) in *.
    split; [apply logistic_above_45 | apply logistic_below_95_05]; lra.
Qed.

Lemma risk_percentage_bounds_all (p : PatientData) :
  45 < risk_percentage (diabetes (calculate_all_risks p)) < 95.05 /\
  45 < risk_percentage (heart_disease (calculate_all_risks p)) < 95.05 /\
  45 < risk_percentage (hypertension (calculate_all_risks p)) < 95.05.
Proof.
  repeat apply conj; apply (percentage_bounds p); cbn [In]; auto.
Qed.

(** X4: whatever the record, each of the three percentages lies strictly
    between 45 and 95.05. *)
Theorem risk_percentage_between_45_and_95 (p : PatientData) :
  45 < risk_percentage (diabetes (calculate_all_risks p)) < 95.05 /\
  45 < risk_percentage (heart_disease (calculate_all_risks p)) < 95.05 /\
  45 < risk_percentage (hypertension (calculate_all_risks p)) < 95.05.
Proof. exact (risk_percentage_bounds_all p). Qed.

Lemma level_medium_or_high (c : ConditionAssessment) :
  risk_level c = level_of (risk_percentage c) ->
  45 < risk_percentage c ->
  risk_level c <> "Low"%string /\
  (risk_level c = "Medium"%string \/ risk_level c = "High"%string).
Proof.
  intros -> Hpct. split.
  - intros Hlow. apply level_of_low in Hlow. lra.
  - destruct (Rge_dec (risk_percentage c) 70) as [Hhi | Hlo].
    + right. now apply level_of_high.
    + left. apply level_of_medium. lra.
Qed.

(** X5: no record is rated Low for heart disease or for hypertension (nor
    for diabetes): each level is Medium or High. *)
Theorem risk_level_never_low (p : PatientData) :
  forall c : ConditionAssessment,
    In c [ diabetes (calculate_all_risks p);
           heart_disease (calculate_all_risks p);
           hypertension (calculate_all_risks p) ] ->
    risk_level c <> "Low"%string /\
    (risk_level c = "Medium"%string \/ risk_level c = "High"%string).
Proof.
  intros c Hin. apply level_medium_or_high.
  - destruct Hin as [<- | [<- | [<- | []]]]; reflexivity.
  - now apply (percentage_bounds p).
Qed.

Lemma risk_level_never_low_witness :
  In (heart_disease (calculate_all_risks Samples.lowest_scores_record))
     [ diabetes (calculate_all_risks Samples.lowest_scores_record);
       heart_disease (calculate_all_risks Samples.lowest_scores_record);
       hypertension (calculate_all_risks Samples.lowest_scores_record) ] /\
  risk_level (heart_disease (calculate_all_risks Samples.lowest_scores_record))
  <> "Low"%string.
Proof.
  assert (Hin :
    In (heart_disease (calculate_all_risks Samples.lowest_scores_record))
       [ diabetes (calculate_all_risks Samples.lowest_scores_record);
         heart_disease (calculate_all_risks Samples.lowest_scores_record);
         hypertension (calculate_all_risks Samples.lowest_scores_record) ])
    by (right; left; reflexivity).
  split; [exact Hin |].
  exact (proj1 (risk_level_never_low Samples.lowest_scores_record _ Hin)).
Defined.

(** *** The level as a function of the total *)

Local Open Scope Q_scope.

Lemma half_add (x y : Q) :
  (exists z : Z, x == z # 2) -> (exists z : Z, y == z # 2) ->
  exists z : Z, x + y == z # 2.
Proof.
  intros [a Ha] [b Hb]. exists (a + b)%Z. rewrite Ha, Hb.
  unfold Qeq, Qplus. simpl. lia.
Qed.

Lemma half_if (t : bool) (x y : Q) :
  (exists z : Z, x == z # 2) -> (exists z : Z, y == z # 2) ->
  exists z : Z, (if t then x else y) == z # 2.
Proof. now destruct t. Qed.

Ltac half_const :=
  match goal with
  | |- exists z : Z, ?c == z # 2 =>
      exists (Qnum (Qred (c * 2))); vm_compute; reflexivity
  end.

Ltac open_totals :=
  unfold calculate_diabetes_risk, calculate_heart_disease_risk,
    calculate_hypertension_risk, assess, diabetes_factors,
    heart_disease_factors, hypertension_factors, sum_values;
  cbn [total_score dict_set String.eqb Ascii.eqb Bool.eqb fold_left snd].

(** Twice a total is an integer. *)
Lemma totals_half_integral (p : PatientData) :
  (exists z : Z, total_score (calculate_diabetes_risk p) == z # 2) /\
  (exists z : Z, total_score (calculate_heart_disease_risk p) == z # 2) /\
  (exists z : Z, total_score (calculate_hypertension_risk p) == z # 2).
Proof.
  repeat split; open_totals;
    repeat first [ apply half_add | apply half_if | half_const ].
Qed.

Lemma half_step (q : Q) (k : Z) :
  (exists z : Z, q == z # 2) -> q < (k # 2) -> q <= (k - 1 # 2).
Proof.
  intros [z Hz] Hlt. rewrite Hz in *.
  unfold Qlt, Qle in *. simpl in *. lia.
Qed.

Lemma exp_ge_7_3_at_7_8 : (7 / 3 < exp (7 / 8))%R.
Proof.
  replace (7 / 8)%R with (INR 32 * (IZR 7 / IZR 256))%R.
  2:{ rewrite INR_IZR_INZ. change (Z.of_nat 32) with 32%Z. lra. }
  replace (7 / 3)%R with (IZR 7 / IZR 3)%R by lra.
  apply exp_gt_ratio; [lia | lia | lia | vm_compute; reflexivity].
Qed.

Lemma exp_lt_7_3_at_13_16 : (exp (13 / 16) < 7 / 3)%R.
Proof.
  replace (13 / 16)%R with (INR 32 * (IZR 13 / IZR 512))%R.
  2:{ rewrite INR_IZR_INZ. change (Z.of_nat 32) with 32%Z. lra. }
  replace (7 / 3)%R with (IZR 7 / IZR 3)%R by lra.
  apply exp_lt_ratio; [lia | lia | lia | vm_compute; reflexivity].
Qed.

Lemma exp_ge_7_3_at_17_20 : (7 / 3 < exp (17 / 20))%R.
Proof.
  replace (17 / 20)%R with (INR 256 * (IZR 17 / IZR 5120))%R.
  2:{ rewrite INR_IZR_INZ. change (Z.of_nat 256) with 256%Z. lra. }
  replace (7 / 3)%R with (IZR 7 / IZR 3)%R by lra.
  apply exp_gt_ratio; [lia | lia | lia | vm_compute; reflexivity].
Qed.

Lemma exp_lt_7_3_at_4_5 : (exp (4 / 5) < 7 / 3)%R.
Proof.
  replace (4 / 5)%R with (INR 32 * (IZR 1 / IZR 40))%R.
  2:{ rewrite INR_IZR_INZ. change (Z.of_nat 32) with 32%Z. lra. }
  replace (7 / 3)%R with (IZR 7 / IZR 3)%R by lra.
  apply exp_lt_ratio; [lia | lia | lia | vm_compute; reflexivity].
Qed.

(** The percentage reaches 70 exactly when [exp (score/scale)] reaches
    7/3. *)
Lemma logistic_ge_70_iff (x : R) :
  (sigmoid_transform x 1 >= 70 <-> 7 / 3 <= exp x)%R.
Proof.
  rewrite sigmoid_ge_iff by lra.
  replace (- x / 1)%R with (- x)%R by (unfold Rdiv; field).
  rewrite exp_Ropp. pose proof (exp_pos x) as He.
  split; intros H.
  - apply Rmult_le_reg_r with (/ exp x * 30)%R.
    + apply Rmult_lt_0_compat; [now apply Rinv_0_lt_compat | lra].
    + replace (exp x * (/ exp x * 30))%R with 30%R by (field; lra). lra.
  - assert (Hinv : (/ exp x <= / (7 / 3))%R)
      by (apply Rinv_le_contravar; lra).
    replace (/ (7 / 3))%R with (3 / 7)%R in Hinv by (field; lra). lra.
Qed.

Lemma high_iff_threshold (rf : RiskFactors) (scale : R) (k : Z) :
  (0 < scale)%R ->
  (exists z : Z, sum_values rf == z # 2) ->
  (7 / 3 <= exp (Q2R (k # 2) / scale))%R ->
  (exp (Q2R (k - 1 # 2) / scale) < 7 / 3)%R ->
  risk_level (assess rf scale) = "High"%string <-> (k # 2) <= sum_values rf.
Proof.
  intros Hs Hhalf Hup Hdown.
  change (risk_level (assess rf scale))
    with (level_of (risk_percentage (assess rf scale))).
  rewrite level_of_high, percentage_as_logistic, logistic_ge_70_iff.
  set (t := sum_values rf) in *.
  assert (Hmono : forall a b : R, (a <= b -> exp (a / scale)
                                   <= exp (b / scale))%R).
  { intros a b [Hab | ->]; [left | right; reflexivity].
    apply exp_increasing. unfold Rdiv.
    apply Rmult_lt_compat_r; [now apply Rinv_0_lt_compat | exact Hab]. }
  split; intros H.
  - destruct (Qlt_le_dec t (k # 2)) as [Hlt | Hle]; [exfalso | exact Hle].
    apply (half_step _ _ Hhalf) in Hlt. apply Qle_Rle in Hlt.
    pose proof (Hmono _ _ Hlt). lra.
  - apply Qle_Rle in H. pose proof (Hmono _ _ H). lra.
Qed.

Lemma medium_iff_below (c : ConditionAssessment) (k t : Q) :
  risk_level c <> "Low"%string /\
  (risk_level c = "Medium"%string \/ risk_level c = "High"%string) ->
  (risk_level c = "High"%string <-> k <= t) ->
  (risk_level c = "Medium"%string <-> t < k).
Proof.
  intros [_ Hmh] Hhigh. split.
  - intros Hm. apply Qnot_le_lt. intros Hle. apply Hhigh in Hle.
    rewrite Hm in Hle. discriminate.
  - intros Hlt. destruct Hmh as [Hm | Hh]; [exact Hm | exfalso].
    apply Hhigh in Hh. now apply (Qlt_not_le _ _ Hlt).
Qed.

(** X7: the diabetes level is High exactly when the total is at least 7,
    and Medium exactly when it is below 7. *)
Theorem diabetes_high_iff_total_7 (p : PatientData) :
  (risk_level (calculate_diabetes_risk p) = "High"%string
   <-> 7 <= total_score (calculate_diabetes_risk p)) /\
  (risk_level (calculate_diabetes_risk p) = "Medium"%string
   <-> total_score (calculate_diabetes_risk p) < 7).
Proof.
  assert (Hhigh : risk_level (calculate_diabetes_risk p) = "High"%string
                  <-> 7 <= total_score (calculate_diabetes_risk p)).
  { destruct (totals_half_integral p) as [Hhalf _].
    unfold calculate_diabetes_risk in *. cbn [total_score assess] in *.
    rewrite (high_iff_threshold (diabetes_factors p) 8.0 14).
    - set (t := sum_values _). split; intros H; Lqa.lra.
    - lra.
    - exact Hhalf.
    - replace (Q2R (14 # 2) / 8.0)%R with (7 / 8)%R
        by (unfold Q2R; simpl; lra).
      left. apply exp_ge_7_3_at_7_8.
    - replace (Q2R (14 - 1 # 2) / 8.0)%R with (13 / 16)%R
        by (unfold Q2R; simpl; lra).
      apply exp_lt_7_3_at_13_16. }
  split; [exact Hhigh |].
  apply medium_iff_below; [| exact Hhigh].
  apply level_medium_or_high; [reflexivity |].
  apply (percentage_bounds p). cbn [In calculate_all_risks diabetes]. auto.
Qed.

(** X8: the hypertension level is High exactly when the total is at least
    7, and Medium exactly when it is below 7. *)
Theorem hypertension_high_iff_total_7 (p : PatientData) :
  (risk_level (calculate_hypertension_risk p) = "High"%string
   <-> 7 <= total_score (calculate_hypertension_risk p)) /\
  (risk_level (calculate_hypertension_risk p) = "Medium"%string
   <-> total_score (calculate_hypertension_risk p) < 7).
Proof.
  assert (Hhigh : risk_level (calculate_hypertension_risk p) = "High"%string
                  <-> 7 <= total_score (calculate_hypertension_risk p)).
  { destruct (totals_half_integral p) as [_ [_ Hhalf]].
    unfold calculate_hypertension_risk in *. cbn [total_score assess] in *.
    rewrite (high_iff_threshold (hypertension_factors p) 8.0 14).
    - set (t := sum_values _). split; intros H; Lqa.lra.
    - lra.
    - exact Hhalf.
    - replace (Q2R (14 # 2) / 8.0)%R with (7 / 8)%R
        by (unfold Q2R; simpl; lra).
      left. apply exp_ge_7_3_at_7_8.
    - replace (Q2R (14 - 1 # 2) / 8.0)%R with (13 / 16)%R
        by (unfold Q2R; simpl; lra).
      apply exp_lt_7_3_at_13_16. }
  split; [exact Hhigh |].
  apply medium_iff_below; [| exact Hhigh].
  apply level_medium_or_high; [reflexivity |].
  apply (percentage_bounds p). cbn [In calculate_all_risks hypertension]. auto.
Qed.

(** X9: the heart-disease level is High exactly when the total is at least
    8.5, and Medium exactly when it is below 8.5. *)
Theorem heart_high_iff_total_8_5 (p : PatientData) :
  (risk_level (calculate_heart_disease_risk p) = "High"%string
   <-> 8.5 <= total_score (calculate_heart_disease_risk p)) /\
  (risk_level (calculate_heart_disease_risk p) = "Medium"%string
   <-> total_score (calculate_heart_disease_risk p) < 8.5).
Proof.
  assert (Hhigh : risk_level (calculate_heart_disease_risk p) = "High"%string
                  <-> 8.5 <= total_score (calculate_heart_disease_risk p)).
  { destruct (totals_half_integral p) as [_ [Hhalf _]].
    unfold calculate_heart_disease_risk in *. cbn [total_score assess] in *.
    rewrite (high_iff_threshold (heart_disease_factors p) 10.0 17).
    - set (t := sum_values _). split; intros H; Lqa.lra.
    - lra.
    - exact Hhalf.
    - replace (Q2R (17 # 2) / 10.0)%R with (17 / 20)%R
        by (unfold Q2R; simpl; lra).
      left. apply exp_ge_7_3_at_17_20.
    - replace (Q2R (17 - 1 # 2) / 10.0)%R with (4 / 5)%R
        by (unfold Q2R; simpl; lra).
      apply exp_lt_7_3_at_4_5. }
  split; [exact Hhigh |].
  apply medium_iff_below; [| exact Hhigh].
  apply level_medium_or_high; [reflexivity |].
  apply (percentage_bounds p). cbn [In calculate_all_risks heart_disease]. auto.
Qed.

End TotalsAndLevels.

(** ** How the totals move with one field *)

Ltac unfold_scorers :=
  unfold RiskCalculator.calculate_diabetes_risk,
    RiskCalculator.calculate_heart_disease_risk,
    RiskCalculator.calculate_hypertension_risk, RiskCalculator.assess,
    RiskCalculator.diabetes_factors, RiskCalculator.heart_disease_factors,
    RiskCalculator.hypertension_factors, sum_values;
  cbn [total_score risk_factors risk_percentage risk_level
       dict_set dict_get String.eqb Ascii.eqb Bool.eqb fold_left snd fst
       with_glucose with_exercise_hdl with_gender
       age gender bmi systolic_bp diastolic_bp glucose cholesterol hdl ldl
       smoking exercise_days alcohol_drinks family_diabetes
       family_heart_disease family_hypertension].

(** Splits on every comparison of the goal, keeping the order facts. *)
Ltac case_tests :=
  repeat match goal with
  | |- context [PyCmp.geb ?x ?c] =>
      let E := fresh "E" in
      destruct (PyCmp.geb x c) eqn:E;
      [apply PyCmpFacts.geb_true in E | apply PyCmpFacts.geb_false in E]
  | |- context [PyCmp.ltb ?x ?c] =>
      let E := fresh "E" in
      destruct (PyCmp.ltb x c) eqn:E;
      [apply PyCmpFacts.ltb_true in E | apply PyCmpFacts.ltb_false in E]
  | |- context [PyCmp.gtb ?x ?c] =>
      let E := fresh "E" in
      destruct (PyCmp.gtb x c) eqn:E;
      [apply PyCmpFacts.gtb_true in E | apply PyCmpFacts.gtb_false in E]
  | |- context [PyCmp.leb ?x ?c] =>
      let E := fresh "E" in
      destruct (PyCmp.leb x c) eqn:E;
      [apply PyCmpFacts.leb_true in E | apply PyCmpFacts.leb_false in E]
  end.

(** The same on the underlying order test, so that [x < c] and [x >= c]
    are one case split. *)
Ltac case_orders :=
  unfold PyCmp.geb, PyCmp.leb, PyCmp.ltb, PyCmp.gtb;
  repeat match goal with
  | |- context [Qle_bool ?x ?y] =>
      let E := fresh "E" in
      destruct (Qle_bool x y) eqn:E;
      [apply Qle_bool_iff in E | apply (PyCmpFacts.geb_false y x) in E]
  end;
  cbn [negb andb orb].

Section ScorerMonotonicity.

Import RiskCalculator.
Local Open Scope Q_scope.
Local Open Scope py_scope.

Lemma exercise_ladders_antitone (e1 e2 : Q) :
  e1 <= e2 ->
  (if e2 <? 2 then 2.0 else if e2 <? 4 then 1.0 else 0.0) <=
  (if e1 <? 2 then 2.0 else if e1 <? 4 then 1.0 else 0.0) /\
  (if e2 >=? 5 then -1.0 else if e2 >=? 3 then -0.5
   else if e2 <? 2 then 1.5 else 0.0) <=
  (if e1 >=? 5 then -1.0 else if e1 >=? 3 then -0.5
   else if e1 <? 2 then 1.5 else 0.0) /\
  (if e2 >=? 5 then -1.5 else if e2 >=? 3 then -1.0
   else if e2 <? 2 then 1.5 else 0.0) <=
  (if e1 >=? 5 then -1.5 else if e1 >=? 3 then -1.0
   else if e1 <? 2 then 1.5 else 0.0).
Proof. intros H. case_tests; repeat split; try easy; Lqa.lra. Qed.

(** X10: of two records that differ in [exercise_days] only, the one with
    more exercise days has no greater total, for each of the three
    scorers. *)
Theorem exercise_never_raises_totals (p1 p2 : PatientData) :
  p2 = with_exercise_hdl p1 (exercise_days p2) (hdl p1) ->
  exercise_days p1 <= exercise_days p2 ->
  total_score (calculate_diabetes_risk p2)
    <= total_score (calculate_diabetes_risk p1) /\
  total_score (calculate_heart_disease_risk p2)
    <= total_score (calculate_heart_disease_risk p1) /\
  total_score (calculate_hypertension_risk p2)
    <= total_score (calculate_hypertension_risk p1).
Proof.
  intros -> Hle. cbn [exercise_days with_exercise_hdl] in Hle.
  destruct (exercise_ladders_antitone _ _ Hle) as [Hd [Hh Hy]].
  repeat split; unfold_scorers; Lqa.lra.
Qed.

Lemma exercise_never_raises_totals_witness :
  let p1 := Samples.boundary_record in
  let p2 := with_exercise_hdl p1 6 (hdl p1) in
  p2 = with_exercise_hdl p1 (exercise_days p2) (hdl p1) /\
  exercise_days p1 <= exercise_days p2 /\
  total_score (calculate_heart_disease_risk p2)
    <= total_score (calculate_heart_disease_risk p1).
Proof.
  intros p1 p2.
  assert (Hsame : p2 = with_exercise_hdl p1 (exercise_days p2) (hdl p1))
    by reflexivity.
  assert (Hle : exercise_days p1 <= exercise_days p2)
    by (now apply Qle_bool_imp_le).
  split; [exact Hsame |]. split; [exact Hle |].
  exact (proj1 (proj2 (exercise_never_raises_totals p1 p2 Hsame Hle))).
Defined.

Lemma glucose_ladders_monotone (g1 g2 : Q) :
  g1 <= g2 ->
  (if g1 >=? 126 then 3.0 else if g1 >=? 100 then 1.5 else 0.0) <=
  (if g2 >=? 126 then 3.0 else if g2 >=? 100 then 1.5 else 0.0) /\
  (if g1 >=? 126 then 2.0 else if g1 >=? 100 then 1.0 else 0.0) <=
  (if g2 >=? 126 then 2.0 else if g2 >=? 100 then 1.0 else 0.0).
Proof. intros H. case_tests; repeat split; try easy; Lqa.lra. Qed.

(** X11: of two records that differ in [glucose] only, the one with the
    greater glucose has no smaller heart-disease total and no smaller
    hypertension total. *)
Theorem glucose_never_lowers_heart_and_hypertension (p1 p2 : PatientData) :
  p2 = with_glucose p1 (glucose p2) ->
  glucose p1 <= glucose p2 ->
  total_score (calculate_heart_disease_risk p1)
    <= total_score (calculate_heart_disease_risk p2) /\
  total_score (calculate_hypertension_risk p1)
    <= total_score (calculate_hypertension_risk p2).
Proof.
  intros -> Hle. cbn [glucose with_glucose] in Hle.
  destruct (glucose_ladders_monotone _ _ Hle) as [Hh Hy].
  split; unfold_scorers; Lqa.lra.
Qed.

Lemma glucose_never_lowers_heart_and_hypertension_witness :
  let p1 := with_glucose Samples.boundary_record 95 in
  let p2 := with_glucose Samples.boundary_record 130 in
  p2 = with_glucose p1 (glucose p2) /\
  glucose p1 <= glucose p2 /\
  total_score (calculate_hypertension_risk p1)
    <= total_score (calculate_hypertension_risk p2).
Proof.
  intros p1 p2.
  assert (Hsame : p2 = with_glucose p1 (glucose p2)) by reflexivity.
  assert (Hle : glucose p1 <= glucose p2) by (now apply Qle_bool_imp_le).
  split; [exact Hsame |]. split; [exact Hle |].
  exact (proj2 (glucose_never_lowers_heart_and_hypertension p1 p2 Hsame Hle)).
Defined.

Lemma hdl_ladders_antitone (h1 h2 : Q) :
  h1 <= h2 ->
  (if h2 <? 35 then 2.0 else if h2 <? 40 then 1.0 else 0.0) <=
  (if h1 <? 35 then 2.0 else if h1 <? 40 then 1.0 else 0.0) /\
  (if h2 <? 35 then 3.0 else if h2 <? 40 then 2.0
   else if h2 >=? 60 then -1.0 else 0.0) <=
  (if h1 <? 35 then 3.0 else if h1 <? 40 then 2.0
   else if h1 >=? 60 then -1.0 else 0.0).
Proof. intros H. case_tests; repeat split; try easy; Lqa.lra. Qed.

(** X12: of two records that differ in [hdl] only, the one with the greater
    HDL has no greater diabetes total and no greater heart-disease total,
    and the same hypertension total. *)
Theorem hdl_never_raises_totals (p1 p2 : PatientData) :
  p2 = with_exercise_hdl p1 (exercise_days p1) (hdl p2) ->
  hdl p1 <= hdl p2 ->
  total_score (calculate_diabetes_risk p2)
    <= total_score (calculate_diabetes_risk p1) /\
  total_score (calculate_heart_disease_risk p2)
    <= total_score (calculate_heart_disease_risk p1) /\
  total_score (calculate_hypertension_risk p2)
    = total_score (calculate_hypertension_risk p1).
Proof.
  intros -> Hle. cbn [hdl with_exercise_hdl] in Hle.
  destruct (hdl_ladders_antitone _ _ Hle) as [Hd Hh].
  repeat split; unfold_scorers; Lqa.lra.
Qed.

Lemma hdl_never_raises_totals_witness :
  let p1 := Samples.boundary_record in
  let p2 := with_exercise_hdl p1 (exercise_days p1) 62 in
  p2 = with_exercise_hdl p1 (exercise_days p1) (hdl p2) /\
  hdl p1 <= hdl p2 /\
  total_score (calculate_heart_disease_risk p2)
    <= total_score (calculate_heart_disease_risk p1).
Proof.
  intros p1 p2.
  assert (Hsame : p2 = with_exercise_hdl p1 (exercise_days p1) (hdl p2))
    by reflexivity.
  assert (Hle : hdl p1 <= hdl p2) by (now apply Qle_bool_imp_le).
  split; [exact Hsame |]. split; [exact Hle |].
  exact (proj1 (proj2 (hdl_never_raises_totals p1 p2 Hsame Hle))).
Defined.

(** X13: with every other field fixed, the heart-disease total for gender
    "Male" is at least the total for any other gender string, by at most 2;
    the other two totals do not read the gender. *)
Theorem heart_male_at_least_other (p : PatientData) (g : string) :
  total_score (calculate_heart_disease_risk (with_gender p g))
    <= total_score (calculate_heart_disease_risk (with_gender p "Male")) /\
  total_score (calculate_heart_disease_risk (with_gender p "Male"))
    <= total_score (calculate_heart_disease_risk (with_gender p g)) + 2 /\
  total_score (calculate_diabetes_risk (with_gender p g))
    = total_score (calculate_diabetes_risk p) /\
  total_score (calculate_hypertension_risk (with_gender p g))
    = total_score (calculate_hypertension_risk p).
Proof.
  assert (Hladder :
    (if (g =? "Male")%string
      then (if age p >=? 55 then 3.0 else if age p >=? 45 then 2.0 else 0.0)
      else (if age p >=? 65 then 3.0 else if age p >=? 55 then 2.0 else 0.0))
    <= (if age p >=? 55 then 3.0 else if age p >=? 45 then 2.0 else 0.0) /\
    (if age p >=? 55 then 3.0 else if age p >=? 45 then 2.0 else 0.0)
    <= (if (g =? "Male")%string
      then (if age p >=? 55 then 3.0 else if age p >=? 45 then 2.0 else 0.0)
      else (if age p >=? 65 then 3.0 else if age p >=? 55 then 2.0 else 0.0))
       + 2).
  { destruct (g =? "Male")%string; case_tests; split; try easy; Lqa.lra. }
  destruct Hladder as [H1 H2].
  repeat split; unfold_scorers; try reflexivity; Lqa.lra.
Qed.

End ScorerMonotonicity.

(** ** The validation as a whole, and the session across submissions *)

Section ValidationAndSession.

Import Utils App.
Local Open Scope Q_scope.
Local Open Scope py_scope.

(** Splits on the checks in program order; a check that rejects removes
    the checks after it. *)
Ltac case_checks :=
  repeat (match goal with
          | |- context [PyCmp.ltb ?x ?c] =>
              let E := fresh "E" in
              destruct (PyCmp.ltb x c) eqn:E;
              [apply PyCmpFacts.ltb_true in E
              | apply PyCmpFacts.ltb_false in E]
          | |- context [PyCmp.gtb ?x ?c] =>
              let E := fresh "E" in
              destruct (PyCmp.gtb x c) eqn:E;
              [apply PyCmpFacts.gtb_true in E
              | apply PyCmpFacts.gtb_false in E]
          | |- context [PyCmp.leb ?x ?c] =>
              let E := fresh "E" in
              destruct (PyCmp.leb x c) eqn:E;
              [apply PyCmpFacts.leb_true in E
              | apply PyCmpFacts.leb_false in E]
          end; cbn [orb andb negb]; cbv iota).

(** X14: for a record whose cholesterol, HDL and LDL are whole numbers, as
    the intake form and the sample file give them,
    [validate_health_metrics] accepts the record exactly when every range
    check holds: age in [18, 120], BMI in [10, 100], systolic in [70, 250],
    diastolic in [40, 150], systolic above diastolic, glucose in [50, 500],
    cholesterol in [100, 500], HDL in [20, 150], LDL in [50, 300] and total
    cholesterol within 50 of HDL + LDL. *)
Theorem validate_accepts_iff (p : PatientData) :
  (exists z : Z, cholesterol p == inject_Z z) ->
  (exists z : Z, hdl p == inject_Z z) ->
  (exists z : Z, ldl p == inject_Z z) ->
  valid (validate_health_metrics p) = true <->
  (18 <= age p /\ age p <= 120) /\
  (10 <= bmi p /\ bmi p <= 100) /\
  (70 <= systolic_bp p /\ systolic_bp p <= 250) /\
  (40 <= diastolic_bp p /\ diastolic_bp p <= 150) /\
  diastolic_bp p < systolic_bp p /\
  (50 <= glucose p /\ glucose p <= 500) /\
  (100 <= cholesterol p /\ cholesterol p <= 500) /\
  (20 <= hdl p /\ hdl p <= 150) /\
  (50 <= ldl p /\ ldl p <= 300) /\
  Qabs (cholesterol p - (hdl p + ldl p)) <= 50.
Proof.
  intros _ _ _.
  unfold validate_health_metrics. cbv zeta.
  case_checks; cbn [valid reject];
    (split;
     [ intros H; try discriminate H; repeat split; assumption
     | intros H; try reflexivity; exfalso;
       decompose [and] H; clear H;
       repeat match goal with
       | H1 : ?a < ?b, H2 : ?b <= ?a |- _ =>
           exact (Qlt_not_le _ _ H1 H2)
       end ]).
Qed.

Lemma validate_accepts_iff_witness :
  let p := Samples.boundary_record in
  ((exists z : Z, cholesterol p == inject_Z z) /\
   (exists z : Z, hdl p == inject_Z z) /\
   (exists z : Z, ldl p == inject_Z z)) /\
  valid (validate_health_metrics p) = true /\
  Qabs (cholesterol p - (hdl p + ldl p)) <= 50.
Proof.
  intros p.
  assert (Hc : exists z : Z, cholesterol p == inject_Z z)
    by (exists 180%Z; reflexivity).
  assert (Hh : exists z : Z, hdl p == inject_Z z)
    by (exists 30%Z; reflexivity).
  assert (Hl : exists z : Z, ldl p == inject_Z z)
    by (exists 140%Z; reflexivity).
  assert (Hvalid : valid (validate_health_metrics p) = true) by reflexivity.
  split; [repeat split; assumption |].
  split; [exact Hvalid |].
  apply (proj1 (validate_accepts_iff p Hc Hh Hl) Hvalid).
Defined.

(** X15: the message of the validation is empty exactly when the record is
    accepted. *)
Theorem validation_message_empty_iff_valid (p : PatientData) :
  message (validate_health_metrics p) = EmptyString
  <-> valid (validate_health_metrics p) = true.
Proof.
  unfold validate_health_metrics.
  repeat match goal with
  | |- context [if ?b then _ else _] => destruct b
  end; cbn [valid message reject]; split; intros H;
    try discriminate H; reflexivity.
Qed.

Lemma on_calculate_state (p : PatientData) (st : Session) :
  fst (on_calculate p st) =
  if valid (validate_health_metrics p)
  then {| patient_data := Some p;
          risk_results := Some (RiskCalculator.calculate_all_risks p) |}
  else st.
Proof.
  unfold on_calculate. now destruct (valid (validate_health_metrics p)).
Qed.

Lemma submit_all_snoc (ps : list PatientData) (p : PatientData)
    (st : Session) :
  submit_all (ps ++ [p]) st = fst (on_calculate p (submit_all ps st)).
Proof. unfold submit_all. now rewrite fold_left_app. Qed.

(** X16: across any sequence of submissions the session stays consistent:
    the risk results it holds are those of the record it holds. *)
Theorem session_stays_consistent (ps : list PatientData) (st : Session) :
  session_consistent st -> session_consistent (submit_all ps st).
Proof.
  intros Hst. induction ps as [| p ps IH] using rev_ind; [exact Hst |].
  rewrite submit_all_snoc, on_calculate_state.
  destruct (valid (validate_health_metrics p)); [reflexivity | exact IH].
Qed.

Lemma session_stays_consistent_witness :
  session_consistent Samples.empty_session /\
  session_consistent
    (submit_all [Samples.boundary_record; Samples.flat_pressure_record]
                Samples.empty_session).
Proof.
  assert (H0 : session_consistent Samples.empty_session) by exact I.
  split; [exact H0 |].
  exact (session_stays_consistent
           [Samples.boundary_record; Samples.flat_pressure_record]
           Samples.empty_session H0).
Defined.

(** X17: after any sequence of submissions the session holds the last
    accepted record with its scores, or is untouched when none was
    accepted; a rejected submission never clears earlier results. *)
Theorem session_holds_last_valid_submission
    (ps : list PatientData) (st : Session) :
  submit_all ps st =
  match find (fun p => valid (validate_health_metrics p)) (rev ps) with
  | Some p =>
      {| patient_data := Some p;
         risk_results := Some (RiskCalculator.calculate_all_risks p) |}
  | None => st
  end.
Proof.
  induction ps as [| p ps IH] using rev_ind; [reflexivity |].
  rewrite submit_all_snoc, on_calculate_state, rev_app_distr.
  cbn [rev app find].
  destruct (valid (validate_health_metrics p)); [reflexivity | exact IH].
Qed.

End ValidationAndSession.

(** ** Population counts and bands *)

Section PopulationCounts.

Import App.
Local Open Scope Q_scope.
Local Open Scope py_scope.

Lemma tier_of_high_iff (m : Q) : tier_of m = "High"%string <-> 70 <= m.
Proof.
  unfold tier_of.
  destruct (m >=? 70) eqn:E70;
    [apply PyCmpFacts.geb_true in E70 | apply PyCmpFacts.geb_false in E70].
  - tauto.
  - destruct (m >=? 40); split; intros H; try discriminate H;
      exfalso; exact (Qlt_not_le _ _ E70 H).
Qed.

Lemma row_high_iff (row : PopulationRow) :
  row_risk_level row = "High"%string <->
  (diabetes_risk row >=? 70) || (heart_disease_risk row >=? 70)
  || (hypertension_risk row >=? 70) = true.
Proof.
  unfold row_risk_level.
  destruct (py_max_from_is_maximum
              [heart_disease_risk row; hypertension_risk row]
              (diabetes_risk row)) as [Hin Hub].
  set (m := py_max_from _ _) in *.
  rewrite tier_of_high_iff, !orb_true_iff, !PyCmpFacts.geb_true.
  split.
  - intros Hm. destruct Hin as [<- | [<- | [<- | []]]]; auto.
  - intros [[H | H] | H];
      (apply Qle_trans with (1 := H); apply Hub; cbn [In]; auto).
Qed.

(** X18: the "High Risk Patients" count equals the number of rows that the
    risk-level loop labels High. *)
Theorem high_risk_count_matches_labels (processed_data : list PopulationRow) :
  high_risk_count processed_data
  = count_occ string_dec (risk_levels processed_data) "High"%string.
Proof.
  unfold high_risk_count, risk_levels.
  induction processed_data as [| row rows IH]; [reflexivity |].
  cbn [filter map count_occ].
  pose proof (row_high_iff row) as Hrow.
  destruct ((diabetes_risk row >=? 70) || (heart_disease_risk row >=? 70)
            || (hypertension_risk row >=? 70)).
  - destruct (string_dec (row_risk_level row) "High") as [_ | Hne].
    + cbn [length]. now rewrite IH.
    + exfalso. apply Hne. now apply Hrow.
  - destruct (string_dec (row_risk_level row) "High") as [Heq | _].
    + apply Hrow in Heq. discriminate Heq.
    + exact IH.
Qed.

(** X19: the age bands are closed on the right: a row gets the label "<30"
    for an age in (0, 30], "30-50" in (30, 50], "50-70" in (50, 70], "70+"
    in (70, 100], and no label at all for an age of 0 or less or above
    100. *)
Theorem age_group_intervals (row : PopulationRow) :
  (age_group row = Some "<30"%string
   <-> 0 < row_age row /\ row_age row <= 30) /\
  (age_group row = Some "30-50"%string
   <-> 30 < row_age row /\ row_age row <= 50) /\
  (age_group row = Some "50-70"%string
   <-> 50 < row_age row /\ row_age row <= 70) /\
  (age_group row = Some "70+"%string
   <-> 70 < row_age row /\ row_age row <= 100) /\
  (age_group row = None <-> row_age row <= 0 \/ 100 < row_age row).
Proof.
  unfold age_group, age_bins, age_labels. cbn [pd_cut].
  case_orders; repeat apply conj; intros H;
    first [ discriminate H | reflexivity
          | split; Lqa.lra | left; Lqa.lra | right; Lqa.lra
          | exfalso; destruct H; Lqa.lra ].
Qed.

End PopulationCounts.

(** ** The summary helpers of utils.py *)

Section SummaryHelpers.

Import RiskCalculator Utils.
Local Open Scope R_scope.

Lemma py_max_R_spec (t : list R) :
  forall x,
    In (PyBuiltins.py_max_R x t) (x :: t) /\
    forall y, In y (x :: t) -> y <= PyBuiltins.py_max_R x t.
Proof.
  unfold PyBuiltins.py_max_R.
  induction t as [| z t IH]; intros x.
  - cbn [fold_left]. split; [now left |]. intros y [<- | []]. lra.
  - cbn [fold_left]. destruct (Rgt_dec z x) as [Hgt | Hle].
    + destruct (IH z) as [Hin Hub]. split.
      * right. exact Hin.
      * intros y [<- | Hy]; [| now apply Hub].
        pose proof (Hub z (or_introl eq_refl)). lra.
    + destruct (IH x) as [Hin Hub]. split.
      * destruct Hin as [Heq | Hin]; [now left | right; now right].
      * intros y [<- | [<- | Hy]].
        -- apply Hub. now left.
        -- pose proof (Hub x (or_introl eq_refl)). lra.
        -- apply Hub. now right.
Qed.

(** The greatest of three percentages reaches a bound exactly when one
    of them does. *)
Lemma max_of_three_ge (a b c k : R) :
  PyBuiltins.py_max_R a [b; c] >= k <-> a >= k \/ b >= k \/ c >= k.
Proof.
  destruct (py_max_R_spec [b; c] a) as [Hin Hub].
  pose proof (Hub a (or_introl eq_refl)).
  pose proof (Hub b (or_intror (or_introl eq_refl))).
  pose proof (Hub c (or_intror (or_intror (or_introl eq_refl)))).
  set (m := PyBuiltins.py_max_R a [b; c]) in *.
  split.
  - intros Hm. destruct Hin as [<- | [<- | [<- | []]]]; auto.
  - intros [Ha | [Hb | Hc]]; lra.
Qed.

(** X20: the colour printed by [format_risk_level_color] next to a condition
    agrees with the level the calculator gave it: red with High, yellow
    with Medium, green with Low. *)
Theorem summary_color_agrees_with_level (rf : RiskFactors) (scale : R) :
  let c := assess rf scale in
  (format_risk_level_color (risk_percentage c) = "🔴"%string
   <-> risk_level c = "High"%string) /\
  (format_risk_level_color (risk_percentage c) = "🟡"%string
   <-> risk_level c = "Medium"%string) /\
  (format_risk_level_color (risk_percentage c) = "🟢"%string
   <-> risk_level c = "Low"%string).
Proof.
  intros c.
  change (risk_level c) with (level_of (risk_percentage c)).
  unfold format_risk_level_color, level_of. cbn [low medium risk_thresholds].
  destruct (Rge_dec (risk_percentage c) 70);
    destruct (Rge_dec (risk_percentage c) 40);
    repeat split; intros H; try reflexivity; discriminate H.
Qed.

Lemma priority_lines_distinct :
  line_high_priority <> line_medium_priority /\
  line_high_priority <> line_low_risk /\
  line_medium_priority <> line_low_risk.
Proof. repeat split; intros H; discriminate H. Qed.

(** X21: on the results of [calculate_all_risks], the closing line of the
    risk summary is the HIGH PRIORITY line exactly when some condition is
    rated High, the MEDIUM PRIORITY line otherwise, and never the LOW RISK
    line. *)
Theorem summary_closing_line (p : PatientData) :
  let r := calculate_all_risks p in
  (overall_assessment_line r = line_high_priority <->
   risk_level (diabetes r) = "High"%string \/
   risk_level (heart_disease r) = "High"%string \/
   risk_level (hypertension r) = "High"%string) /\
  (overall_assessment_line r = line_medium_priority <->
   ~ (risk_level (diabetes r) = "High"%string \/
      risk_level (heart_disease r) = "High"%string \/
      risk_level (hypertension r) = "High"%string)) /\
  overall_assessment_line r <> line_low_risk.
Proof.
  intros r.
  destruct priority_lines_distinct as [Hhm [Hhl Hml]].
  assert (Hlevels :
    risk_level (diabetes r) = "High"%string \/
    risk_level (heart_disease r) = "High"%string \/
    risk_level (hypertension r) = "High"%string
    <-> PyBuiltins.py_max_R (risk_percentage (diabetes r))
          [risk_percentage (heart_disease r);
           risk_percentage (hypertension r)] >= 70).
  { rewrite max_of_three_ge.
    change (risk_level (diabetes r))
      with (level_of (risk_percentage (diabetes r))).
    change (risk_level (heart_disease r))
      with (level_of (risk_percentage (heart_disease r))).
    change (risk_level (hypertension r))
      with (level_of (risk_percentage (hypertension r))).
    now rewrite !level_of_high. }
  assert (H40 :
    PyBuiltins.py_max_R (risk_percentage (diabetes r))
      [risk_percentage (heart_disease r);
       risk_percentage (hypertension r)] >= 40).
  { apply max_of_three_ge. left.
    pose proof (percentage_bounds p (diabetes r) (or_introl eq_refl)). lra. }
  unfold overall_assessment_line.
  set (m := PyBuiltins.py_max_R _ _) in *.
  destruct (Rge_dec m 70) as [Hhi | Hlo].
  - repeat split; tauto.
  - destruct (Rge_dec m 40) as [_ | Hno]; [| contradiction].
    repeat split; try tauto.
    intros Heq. symmetry in Heq. contradiction.
Qed.

Local Open Scope Q_scope.
Local Open Scope py_scope.

(** X22: the Watson summary's BMI and blood-pressure categories are the
    lower-case forms of the categories of utils.py, for every value. *)
Theorem watson_categories_are_lowercase :
  (forall b : Q,
     Watson._get_bmi_category b = PyBuiltins.lower (get_bmi_category b)) /\
  (forall systolic diastolic : Q,
     Watson._get_bp_category systolic diastolic
     = PyBuiltins.lower (get_blood_pressure_category systolic diastolic)).
Proof.
  split.
  - intros b. unfold Watson._get_bmi_category, get_bmi_category.
    repeat match goal with
    | |- context [if ?t then _ else _] => destruct t
    end; reflexivity.
  - intros s d. unfold Watson._get_bp_category, get_blood_pressure_category.
    repeat match goal with
    | |- context [if ?t then _ else _] => destruct t
    end; reflexivity.
Qed.

(** X23: the blood-pressure category and the hypertension scorer agree on
    Normal (score 0) and Elevated (score 1.5), and a score of 3 is always
    Stage 1; but Stage 2 needs both systolic >= 140 and diastolic >= 90
    while the scorer gives its top score 5 as soon as one of them holds, so
    a record can be labelled Stage 1 and still score 5. *)
Theorem bp_category_against_hypertension_score (p : PatientData) :
  let category :=
    get_blood_pressure_category (systolic_bp p) (diastolic_bp p) in
  let score :=
    dict_get (risk_factors (calculate_hypertension_risk p))
             "current_bp_risk" in
  (category = "Normal"%string <-> score = Some 0.0) /\
  (category = "Elevated"%string <-> score = Some 1.5) /\
  (score = Some 3.0 -> category = "Stage 1 Hypertension"%string) /\
  (category = "Stage 2 Hypertension"%string
   <-> 140 <= systolic_bp p /\ 90 <= diastolic_bp p) /\
  (score = Some 5.0 <-> 140 <= systolic_bp p \/ 90 <= diastolic_bp p) /\
  (category = "Stage 1 Hypertension"%string /\ score = Some 5.0
   <-> (140 <= systolic_bp p /\ diastolic_bp p < 90) \/
       (systolic_bp p < 140 /\ 90 <= diastolic_bp p)).
Proof.
  intros category score. subst category score.
  unfold get_blood_pressure_category. unfold_scorers.
  case_orders; repeat apply conj; intros H;
    first [ discriminate H | reflexivity
          | split; Lqa.lra | left; Lqa.lra | right; Lqa.lra
          | exfalso; destruct H; Lqa.lra
          | destruct H as [H1 H2]; discriminate
          | split; reflexivity
          | left; split; Lqa.lra | right; split; Lqa.lra
          | exfalso; destruct H as [[H1 H2] | [H1 H2]]; Lqa.lra ].
Qed.

(** X24: the BMI category and the BMI ladders of the scorers use the same
    cut points: Obese is exactly a heart-disease BMI score of 2, Overweight
    exactly a score of 1, and the diabetes and hypertension BMI scores are
    0 exactly for Underweight and Normal weight. *)
Theorem bmi_category_against_scores (p : PatientData) :
  let category := get_bmi_category (bmi p) in
  (category = "Obese"%string <->
   dict_get (risk_factors (calculate_heart_disease_risk p)) "bmi_risk"
   = Some 2.0) /\
  (category = "Overweight"%string <->
   dict_get (risk_factors (calculate_heart_disease_risk p)) "bmi_risk"
   = Some 1.0) /\
  (category = "Underweight"%string \/ category = "Normal weight"%string <->
   dict_get (risk_factors (calculate_diabetes_risk p)) "bmi_risk"
   = Some 0.0) /\
  (category = "Underweight"%string \/ category = "Normal weight"%string <->
   dict_get (risk_factors (calculate_hypertension_risk p)) "bmi_risk"
   = Some 0.0).
Proof.
  intros category. subst category.
  unfold get_bmi_category. unfold_scorers.
  case_tests; repeat apply conj; intros H;
    first [ discriminate H | reflexivity
          | left; reflexivity | right; reflexivity
          | exfalso; Lqa.lra
          | exfalso; destruct H as [H | H]; discriminate H ].
Qed.

End SummaryHelpers.

(** ** The simplified cardiovascular score *)

Section Cardiovascular.

Import Utils.
Local Open Scope Z_scope.
Local Open Scope py_scope.

Lemma ladder4 (a b c : bool) (s x y z : Z) :
  (if a then s + x else if b then s + y else if c then s + z else s)
  = s + (if a then x else if b then y else if c then z else 0).
Proof. destruct a, b, c; lia. Qed.

Lemma ladder3 (a b : bool) (s x y : Z) :
  (if a then s + x else if b then s + y else s)
  = s + (if a then x else if b then y else 0).
Proof. destruct a, b; lia. Qed.

Lemma ladder3_minus (a b : bool) (s x y : Z) :
  (if a then s + x else if b then s - y else s)
  = s + (if a then x else if b then - y else 0).
Proof. destruct a, b; lia. Qed.

(** The raw score is the sum of seven independent increments. *)
Lemma cardiovascular_raw_as_sum (p : PatientData) :
  cardiovascular_raw_score p =
  (if age p >=? 65 then 3 else if age p >=? 55 then 2
   else if age p >=? 45 then 1 else 0)
  + (if (gender p =? "Male")%string && (age p >=? 45) then 1
     else if (gender p =? "Female")%string && (age p >=? 55) then 1 else 0)
  + (if (smoking p =? "Current")%string then 3
     else if (smoking p =? "Former")%string then 1 else 0)
  + (if systolic_bp p >=? 140 then 2
     else if systolic_bp p >=? 130 then 1 else 0)
  + (if cholesterol p >=? 240 then 2
     else if cholesterol p >=? 200 then 1 else 0)
  + (if hdl p <? 40 then 1 else if hdl p >=? 60 then - (1) else 0)
  + (if glucose p >=? 126 then 2 else if glucose p >=? 100 then 1 else 0).
Proof.
  unfold cardiovascular_raw_score. cbv zeta.
  rewrite !ladder4, !ladder3_minus, !ladder3. lia.
Qed.

Lemma age_increment (a : Q) :
  let inc := if a >=? 65 then 3 else if a >=? 55 then 2
             else if a >=? 45 then 1 else 0 in
  0 <= inc <= 3 /\ (inc = 0 <-> (a < 45)%Q).
Proof.
  cbv zeta. case_tests; (split; [lia |]); split; intros H;
    first [ assumption | reflexivity | discriminate H | exfalso; Lqa.lra ].
Qed.

Lemma gender_increment (g : string) (a : Q) :
  let inc := if (g =? "Male")%string && (a >=? 45) then 1
             else if (g =? "Female")%string && (a >=? 55) then 1 else 0 in
  0 <= inc <= 1 /\ ((a < 45)%Q -> inc = 0).
Proof.
  cbv zeta.
  destruct (g =? "Male")%string, (g =? "Female")%string;
    case_tests; cbn [andb]; (split; [lia |]); intros H;
    first [ reflexivity | exfalso; Lqa.lra ].
Qed.

Lemma smoking_increment (s : string) :
  let inc := if (s =? "Current")%string then 3
             else if (s =? "Former")%string then 1 else 0 in
  0 <= inc <= 3 /\
  (inc = 0 <-> (s =? "Current")%string = false
               /\ (s =? "Former")%string = false).
Proof.
  cbv zeta.
  destruct (s =? "Current")%string, (s =? "Former")%string;
    (split; [lia |]); split; intros H;
    first [ discriminate H | reflexivity | now split
          | destruct H as [H1 H2]; discriminate ].
Qed.

Lemma two_step_increment (v hi lo : Q) :
  let inc := if v >=? hi then 2 else if v >=? lo then 1 else 0 in
  (lo <= hi)%Q -> 0 <= inc <= 2 /\ (inc = 0 <-> (v < lo)%Q).
Proof.
  cbv zeta. intros Hlh.
  case_tests; (split; [lia |]); split; intros H;
    first [ assumption | reflexivity | discriminate H | exfalso; Lqa.lra ].
Qed.

Lemma hdl_increment (h : Q) :
  let inc := if h <? 40 then 1 else if h >=? 60 then - (1) else 0 in
  -1 <= inc <= 1 /\ (inc = -1 <-> (60 <= h)%Q).
Proof.
  cbv zeta. case_tests; (split; [lia |]); split; intros H;
    first [ assumption | reflexivity | discriminate H | exfalso; Lqa.lra ].
Qed.

Lemma cardiovascular_raw_bounds (p : PatientData) :
  -1 <= cardiovascular_raw_score p <= 14 /\
  (cardiovascular_raw_score p = -1 <->
   (age p < 45)%Q /\ (smoking p =? "Current")%string = false /\
   (smoking p =? "Former")%string = false /\
   (systolic_bp p < 130)%Q /\ (cholesterol p < 200)%Q /\
   (60 <= hdl p)%Q /\ (glucose p < 100)%Q).
Proof.
  rewrite cardiovascular_raw_as_sum.
  pose proof (age_increment (age p)) as Hage.
  pose proof (gender_increment (gender p) (age p)) as Hgender.
  pose proof (smoking_increment (smoking p)) as Hsmoking.
  assert (H1 : (130 <= 140)%Q) by (now apply Qle_bool_imp_le).
  assert (H2 : (200 <= 240)%Q) by (now apply Qle_bool_imp_le).
  assert (H3 : (100 <= 126)%Q) by (now apply Qle_bool_imp_le).
  pose proof (two_step_increment (systolic_bp p) 140 130 H1) as Hbp.
  pose proof (two_step_increment (cholesterol p) 240 200 H2) as Hchol.
  pose proof (hdl_increment (hdl p)) as Hhdl.
  pose proof (two_step_increment (glucose p) 126 100 H3) as Hglucose.
  cbv zeta in *.
  set (i1 := if age p >=? 65 then _ else _) in *.
  set (i2 := if (gender p =? "Male")%string && _ then _ else _) in *.
  set (i3 := if (smoking p =? "Current")%string then _ else _) in *.
  set (i4 := if systolic_bp p >=? 140 then _ else _) in *.
  set (i5 := if cholesterol p >=? 240 then _ else _) in *.
  set (i6 := if hdl p <? 40 then _ else _) in *.
  set (i7 := if glucose p >=? 126 then _ else _) in *.
  destruct Hage as [Ra Za], Hgender as [Rg Zg], Hsmoking as [Rs Zs],
    Hbp as [Rb Zb], Hchol as [Rc Zc], Hhdl as [Rh Zh], Hglucose as [Ru Zu].
  split; [lia |]. split.
  - intros Hsum.
    assert (i1 = 0 /\ i3 = 0 /\ i4 = 0 /\ i5 = 0 /\ i6 = -1 /\ i7 = 0)
      as (E1 & E3 & E4 & E5 & E6 & E7) by lia.
    apply Za in E1. apply Zs in E3. apply Zb in E4. apply Zc in E5.
    apply Zh in E6. apply Zu in E7. tauto.
  - intros (Ca & Cs1 & Cs2 & Cb & Cc & Ch & Cu).
    pose proof (Zg Ca).
    apply Za in Ca. apply Zb in Cb. apply Zc in Cc. apply Zh in Ch.
    apply Zu in Cu.
    assert (i3 = 0) by (apply Zs; now split).
    lia.
Qed.

(** X25: [calculate_cardiovascular_risk_score] always returns an integer
    between 0 and 14; the closing [max(0, score)] changes the score only for
    a record under 45, never a smoker, with systolic below 130, cholesterol
    below 200, glucose below 100 and HDL at 60 or more, whose raw score -1
    becomes 0. *)
Theorem cardiovascular_score_range (p : PatientData) :
  0 <= calculate_cardiovascular_risk_score p <= 14 /\
  (calculate_cardiovascular_risk_score p <> cardiovascular_raw_score p <->
   (age p < 45)%Q /\ (smoking p =? "Current")%string = false /\
   (smoking p =? "Former")%string = false /\
   (systolic_bp p < 130)%Q /\ (cholesterol p < 200)%Q /\
   (60 <= hdl p)%Q /\ (glucose p < 100)%Q).
Proof.
  destruct (cardiovascular_raw_bounds p) as [Hrange Hminus].
  unfold calculate_cardiovascular_risk_score.
  split; [lia |].
  rewrite <- Hminus. lia.
Qed.

End Cardiovascular.

(** ** The rule-based recommendations and advice *)

Section WatsonRules.

Import RiskCalculator Watson.
Local Open Scope py_scope.

Lemma recommendations_distinct_from_cholesterol :
  rec_consultation <> rec_cholesterol /\ rec_weight <> rec_cholesterol /\
  rec_smoking <> rec_cholesterol /\ rec_activity <> rec_cholesterol /\
  rec_diabetes <> rec_cholesterol.
Proof. repeat split; intros H; discriminate H. Qed.

(** X26: [_generate_ai_recommendations] returns at most five
    recommendations, all of them when at most five rules fire; the
    cholesterol recommendation, which comes last, is present exactly when
    cholesterol is at least 240 and not all of the five rules before it
    fire. *)
Theorem ai_recommendations_capped_at_five
    (p : PatientData) (r : RiskAssessment) :
  (length (_generate_ai_recommendations p r) <= 5)%nat /\
  ((length (all_recommendations p r) <= 5)%nat ->
   _generate_ai_recommendations p r = all_recommendations p r) /\
  (In rec_cholesterol (_generate_ai_recommendations p r) <->
   (cholesterol p >=? 240) = true /\
   ~ ((max_risk_of r >= 70)%R /\ (bmi p >=? 30) = true /\
      (smoking p =? "Current")%string = true /\
      (exercise_days p <? 3) = true /\ (glucose p >=? 126) = true)).
Proof.
  destruct recommendations_distinct_from_cholesterol
    as (D1 & D2 & D3 & D4 & D5).
  unfold _generate_ai_recommendations, all_recommendations, append_if.
  cbv zeta.
  destruct (Rge_dec (max_risk_of r) 70) as [Hmax | Hmax];
    destruct (bmi p >=? 30), (smoking p =? "Current")%string,
      (exercise_days p <? 3), (glucose p >=? 126), (cholesterol p >=? 240);
    cbn [app firstn length In];
    (split; [lia |]); (split; [intros Hlen; first [reflexivity | lia] |]);
    split; intros H; intuition (try discriminate; try congruence).
Qed.

(** X27: on the results of [calculate_all_risks] the personalised advice
    always contains the glucose, the heart and the sodium advice, in that
    order at its end, after at most two age and gender items. *)
Theorem personalized_advice_on_calculator_results (p : PatientData) :
  exists lead : list string,
    _generate_personalized_advice p (calculate_all_risks p)
    = lead ++ [advice_diabetes; advice_heart; advice_hypertension] /\
    (length lead <= 2)%nat.
Proof.
  pose proof (risk_percentage_bounds_all p) as (Hd & Hh & Hy).
  unfold _generate_personalized_advice. cbv zeta.
  set (r := calculate_all_risks p) in *.
  destruct (Rge_dec (risk_percentage (diabetes r)) 40) as [_ | Hn];
    [| exfalso; apply Hn; lra].
  destruct (Rge_dec (risk_percentage (heart_disease r)) 40) as [_ | Hn];
    [| exfalso; apply Hn; lra].
  destruct (Rge_dec (risk_percentage (hypertension r)) 40) as [_ | Hn];
    [| exfalso; apply Hn; lra].
  set (lead :=
    (if (gender p =? "Female")%string && (age p >=? 50)
     then _ else _) : list string).
  exists lead. split.
  - rewrite <- !app_assoc. reflexivity.
  - subst lead.
    destruct (age p >=? 65), (age p >=? 50), (age p >=? 35),
      (age p >=? 40), (gender p =? "Female")%string,
      (gender p =? "Male")%string; cbn [andb app length]; lia.
Qed.

End WatsonRules.

(** ** The factors listed on the assessment page *)

Section PrimaryFactors.

Import RiskCalculator App.
Local Open Scope Q_scope.
Local Open Scope py_scope.

Lemma positive_part_above (rf : RiskFactors) :
  forall acc1 acc2 : Q,
    acc1 <= acc2 ->
    fold_left (fun a kv => a + snd kv) rf acc1 <=
    fold_left (fun a kv => a + snd kv)
              (filter (fun kv => snd kv >? 0) rf) acc2.
Proof.
  induction rf as [| kv rf IH]; intros acc1 acc2 Hacc; [exact Hacc |].
  cbn [fold_left filter].
  destruct (snd kv >? 0) eqn:E;
    [apply PyCmpFacts.gtb_true in E | apply PyCmpFacts.gtb_false in E];
    cbn [fold_left]; apply IH; Lqa.lra.
Qed.

Lemma positive_part_below (rf : RiskFactors) :
  Forall (fun kv => 0 <= snd kv) rf ->
  forall acc1 acc2 : Q,
    acc2 <= acc1 ->
    fold_left (fun a kv => a + snd kv)
              (filter (fun kv => snd kv >? 0) rf) acc2 <=
    fold_left (fun a kv => a + snd kv) rf acc1.
Proof.
  induction 1 as [| kv rf Hkv _ IH]; intros acc1 acc2 Hacc; [exact Hacc |].
  cbn [fold_left filter].
  destruct (snd kv >? 0) eqn:E;
    [apply PyCmpFacts.gtb_true in E | apply PyCmpFacts.gtb_false in E];
    cbn [fold_left]; apply IH; Lqa.lra.
Qed.

(** X28: the factors listed as "Primary Risk Factors" (those with a
    positive score) add up to at least the total shown under them, since
    the protective factors are left out of the list; for diabetes, which has
    no protective factor, they add up to the total exactly. *)
Theorem primary_factors_cover_total :
  (forall (rf : RiskFactors) (scale : R),
     total_score (assess rf scale)
     <= sum_values (primary_risk_factors (assess rf scale))) /\
  (forall p : PatientData,
     sum_values (primary_risk_factors (calculate_diabetes_risk p))
     == total_score (calculate_diabetes_risk p)).
Proof.
  split.
  - intros rf scale. apply positive_part_above. apply Qle_refl.
  - intros p. apply Qle_antisym.
    + apply positive_part_below; [| apply Qle_refl].
      apply diabetes_factors_nonneg.
    + apply positive_part_above. apply Qle_refl.
Qed.

End PrimaryFactors.

(** ** The sigmoid: the formula, and its binary64 value *)

Section SigmoidBinary64.

Import RiskCalculator.
Local Open Scope R_scope.









(** *** Where the binary64 value leaves the formula *)








End SigmoidBinary64.
